(** * Conditional-distribution learners of [i3/learn.py]

    A shallow embedding of the learner classes of [src/i3/learn.py] and
    the properties of them that the specification states.

    Conventions of the embedding.
    - A Python call that may raise is a function into [result]; a method
      that mutates [self] returns the new object next to its result, and
      the object it returns is the one the caller sees also when the call
      raised (Python does not roll back).
    - Python integers are [Z].  A context ([params]) is a tuple of
      integers, [list Z]; [tuple(params)] is the identity on it.
    - [int / int] under [from __future__ import division] is the exact
      quotient, kept in [Q]; [math.log] is the real logarithm [ln].  The
      rounding of IEEE doubles is not modelled.
    - The numeric library and the distribution objects of the exact
      inference module are black boxes: each is an interface (a class)
      with the operations a learner calls on it. *)

From Stdlib Require Import Reals Lra QArith Qreals.
From stdpp Require Import gmap list strings sorting.

Close Scope Q_scope.
Close Scope R_scope.
Open Scope Z_scope.

(** ** Python exceptions and fallible results *)

Inductive exn : Set :=
  | IndexError
  | KeyError
  | NameError
  | AttributeError
  | TypeError
  | ValueError
  | ZeroDivisionError
  | AssertionError
  | NotFittedError.

Inductive result (A : Type) : Type :=
  | Ok (a : A)
  | Raise (e : exn).
Arguments Ok {A} a.
Arguments Raise {A} e.

(** Sequencing stops at the first exception; with these instances the
    monadic notation [x ← r; k] reads as consecutive statements. *)
#[export] Instance result_ret : MRet result := fun A a => Ok a.
#[export] Instance result_bind : MBind result := fun A B k r =>
  match r with
  | Ok a => k a
  | Raise e => Raise e
  end.

Definition is_ok {A} (r : result A) : bool :=
  match r with Ok _ => true | Raise _ => false end.

(** ** Python sequences *)

Module Py.

(** [l[i]] on a list: indices [-len(l) <= i < len(l)] are legal, a
    negative one counts from the end; anything else is an [IndexError]. *)
Definition norm_index (len i : Z) : result nat :=
  if (0 <=? i) && (i <? len) then Ok (Z.to_nat i)
  else if (- len <=? i) && (i <? 0) then Ok (Z.to_nat (len + i))
  else Raise IndexError.

Definition getitem {A} (l : list A) (i : Z) : result A :=
  j ← norm_index (Z.of_nat (length l)) i;
  match l !! j with
  | Some a => Ok a
  | None => Raise IndexError
  end.

(** [l[i] = a], in place. *)
Definition setitem {A} (l : list A) (i : Z) (a : A) : result (list A) :=
  j ← norm_index (Z.of_nat (length l)) i;
  Ok (<[j := a]> l).

(** [sum(l)] *)
Definition sum (l : list Z) : Z := foldr Z.add 0 l.

(** [a / b] on integers, true division. *)
Definition truediv (a b : Z) : result Q :=
  if b =? 0 then Raise ZeroDivisionError
  else Ok (Qdiv (inject_Z a) (inject_Z b)).

(** [math.log(p)]: a [ValueError] (math domain error) unless [p > 0]. *)
Definition math_log (p : Q) : result R :=
  if Qle_bool p 0 then Raise ValueError else Ok (ln (Q2R p)).

(** [range(n)] as a list. *)
Definition range (n : nat) : list Z := Z.of_nat <$> seq 0 n.

(** The values a name of [learn.py] can be bound to, as far as the
    learners look at them: a list of (context, value) pairs, or anything
    else (a module, a class, a function). *)
Inductive pyval : Type :=
  | VPairs (ps : list (list Q * Q))
  | VOpaque.

(** The classes of [learn.py] and the two base classes it takes from
    [dist].  [dist] is imported by [learn.py], so no class of [dist]
    can inherit from a class defined here. *)
Inductive cls : Set :=
  | cDiscreteDistribution
  | cContinuousDistribution
  | cCountLearner
  | cLinRegLearner
  | cKnnGaussianLearner
  | cGibbsLearner
  | cLogisticRegressionLearner.

#[export] Instance cls_eq_dec : EqDecision cls.
Proof. solve_decision. Defined.

(** The base named in each [class] statement. *)
Definition bases (c : cls) : list cls :=
  match c with
  | cDiscreteDistribution | cContinuousDistribution => []
  | cCountLearner | cGibbsLearner | cLogisticRegressionLearner =>
      [cDiscreteDistribution]
  | cLinRegLearner | cKnnGaussianLearner => [cContinuousDistribution]
  end.

Definition issubclass (c d : cls) : bool :=
  bool_decide (d ∈ c :: bases c ++ (bases c ≫= bases)).

(** [super(ty, self)]: a [TypeError] unless [self] is an instance of
    [ty]. *)
Definition super (ty self_cls : cls) : result unit :=
  if issubclass self_cls ty then Ok tt else Raise TypeError.

End Py.

(** ** CountLearner *)

Module CountLearner.

(** The object: the declared support and the [defaultdict] of count
    vectors, whose factory is [lambda: [1] * len(support)]. *)
Record t : Type := Build {
  _support : list Z;
  counts : gmap (list Z) (list Z)
}.

Definition __init__ (support : list Z) : t :=
  {| _support := support; counts := ∅ |}.

Definition default_factory (self : t) : list Z :=
  replicate (length (_support self)) 1.

(** [self.counts[key]]: a missing key is first bound to a fresh vector
    of ones, which is then returned. *)
Definition counts_getitem (self : t) (key : list Z) : t * list Z :=
  match counts self !! key with
  | Some c => (self, c)
  | None =>
      let c := default_factory self in
      ({| _support := _support self; counts := <[key := c]> (counts self) |}, c)
  end.

(** The first two lines of [log_probability]: the lookup and the
    quotient [counts[value] / sum(counts)]. *)
Definition probability (self : t) (params : list Z) (value : Z)
  : t * result Q :=
  let '(self', c) := counts_getitem self params in
  (self', cv ← Py.getitem c value; Py.truediv cv (Py.sum c)).

Definition log_probability (self : t) (params : list Z) (value : Z)
  : t * result R :=
  let '(self', p) := probability self params value in
  (self', p ← p; Py.math_log p).

(** [self.counts[tuple(params)][value] += 1]: the vector is fetched
    (and created when missing), its entry read, and the incremented entry
    stored in the same vector. *)
Definition observe (self : t) (params : list Z) (value : Z)
  : t * result unit :=
  let '(self', c) := counts_getitem self params in
  match (cv ← Py.getitem c value; Py.setitem c value (cv + 1)) with
  | Ok c' =>
      ({| _support := _support self'; counts := <[params := c']> (counts self') |},
       Ok tt)
  | Raise e => (self', Raise e)
  end.

(** [sample] reads [self.counts[tuple(params)]] and hands the normalized
    vector to the sampling capability, which lives outside this file;
    what it does to the object is the lookup. *)
Definition sample_effect (self : t) (params : list Z) : t :=
  fst (counts_getitem self params).

Definition support (self : t) (params : list Z) : list Z := _support self.

Definition finalize (self : t) : t * result unit := (self, Ok tt).

(** The count vector a context stands for, without touching the object. *)
Definition counts_of (self : t) (params : list Z) : list Z :=
  default (default_factory self) (counts self !! params).

(** Method calls a client can make, and the object after a sequence of
    them.  A call that raises leaves the object as it was when it raised. *)
Inductive call : Type :=
  | CObserve (params : list Z) (value : Z)
  | CLogProbability (params : list Z) (value : Z)
  | CSample (params : list Z)
  | CSupport (params : list Z)
  | CFinalize.

Definition step (self : t) (c : call) : t :=
  match c with
  | CObserve p v => fst (observe self p v)
  | CLogProbability p v => fst (log_probability self p v)
  | CSample p => sample_effect self p
  | CSupport _ => self
  | CFinalize => fst (finalize self)
  end.

Definition run (self : t) (cs : list call) : t := foldl step self cs.

End CountLearner.


(** ** The module namespace of [learn.py] *)

(** Every name bound at the top level of [learn.py]: the imports, the
    five classes and the two transformers. *)
Definition learn_globals : gmap string Py.pyval :=
  list_to_map ((fun n => (n, Py.VOpaque)) <$>
    ["division"; "collections"; "math"; "linear_model"; "dist"; "gibbs";
     "utils"; "stats"; "NearestNeighbors"; "CountLearner"; "LinRegLearner";
     "KnnGaussianLearner"; "GibbsLearner"; "identity_transformer";
     "square_transformer"; "LogisticRegressionLearner"]%string).

(** ** The numeric library *)

(** An estimator object of the numeric library: constructed unfitted,
    fitted in place by [fit].  Querying an unfitted estimator raises the
    library's [NotFittedError]. *)
Inductive estimator (F : Type) : Type :=
  | Unfitted
  | Fitted (f : F).
Arguments Unfitted {F}.
Arguments Fitted {F} f.

(** [sklearn.linear_model.LinearRegression]: [fit(X, y)] and
    [predict(x)]. *)
Class LinearRegression := {
  lr_model : Type;
  lr_fit : list (list Q) -> list Q -> result lr_model;
  lr_predict : lr_model -> list Q -> result Q
}.

(** [sklearn.neighbors.NearestNeighbors]: [fit(X)] and
    [kneighbors(x, n_neighbors, return_distance=True)], which answers
    with an array of distances and an array of indices. *)
Class NearestNeighbors := {
  nn_index : Type;
  nn_fit : list (list Q) -> result nn_index;
  nn_kneighbors : nn_index -> list Q -> Z -> result (list (list Q) * list (list Z))
}.

(** [scipy.stats.gaussian_kde] over the argument [get_density_estimator]
    gives it, with [resample(size=1)[0][0]] and [evaluate]. *)
Class GaussianKde (A : Type) := {
  kde_model : Type;
  gaussian_kde : A -> result kde_model;
  kde_resample1 : kde_model -> result Q;
  kde_evaluate : kde_model -> Q -> result Q
}.

(** [sklearn.linear_model.LogisticRegression(penalty="l2")]. *)
Class LogisticRegression := {
  lg_model : Type;
  lg_new : lg_model;
  lg_fit : lg_model -> list (list Z) -> list Z -> result lg_model;
  lg_classes_ : lg_model -> list Z;
  lg_predict_proba : lg_model -> list Z -> result (list (list Q))
}.

(** The distribution objects that [gibbs.all_gibbs_distributions] puts in
    its map, with the three methods [GibbsLearner] calls on them; [Rng]
    is the state of the sampling capability they share. *)
Class GibbsDistribution (Rng : Type) := {
  gd_obj : Type;
  gd_log_probability : gd_obj -> Z -> result R;
  gd_sample : gd_obj -> Rng -> Rng * result Z;
  gd_support : gd_obj -> list Z
}.

(** ** LinRegLearner *)

Module LinRegLearner.
Section defs.
Context `{LR : LinearRegression}.

Record t : Type := Build {
  observations : list (list Q * Q);
  learner : option (estimator lr_model)
}.

Definition __init__ : result t :=
  _ ← Py.super Py.cLinRegLearner Py.cLinRegLearner;
  Ok {| observations := []; learner := None |}.

Definition observe (self : t) (params : list Q) (value : Q)
  : t * result unit :=
  ({| observations := observations self ++ [(params, value)];
      learner := None |}, Ok tt).

(** The bare name [observations] in [finalize] is neither a parameter nor
    a local of the method, so it is looked up in the module namespace
    [g]. *)
Definition finalize (g : gmap string Py.pyval) (self : t) : t * result unit :=
  match learner self with
  | None =>
      let self1 := {| observations := observations self;
                      learner := Some Unfitted |} in
      match g !! "observations"%string with
      | None => (self1, Raise NameError)
      | Some Py.VOpaque => (self1, Raise TypeError)
      | Some (Py.VPairs obs) =>
          match lr_fit (fst <$> obs) (snd <$> obs) with
          | Ok f => ({| observations := observations self;
                        learner := Some (Fitted f) |}, Ok tt)
          | Raise e => (self1, Raise e)
          end
      end
  | Some _ => (self, Ok tt)
  end.

(** [self.learner.predict(params)] *)
Definition learner_predict (self : t) (params : list Q) : result Q :=
  match learner self with
  | None => Raise AttributeError
  | Some Unfitted => Raise NotFittedError
  | Some (Fitted f) => lr_predict f params
  end.

Definition sample (self : t) (params : list Q) : result Q :=
  learner_predict self params.

Definition log_probability (self : t) (params : list Q) (value : Q)
  : result Q :=
  pred ← learner_predict self params;
  Ok (Qopp (Qpower (Qminus pred value) 2)).

Inductive call : Type :=
  | CObserve (params : list Q) (value : Q)
  | CFinalize
  | CSample (params : list Q)
  | CLogProbability (params : list Q) (value : Q).

Definition step (g : gmap string Py.pyval) (self : t) (c : call) : t :=
  match c with
  | CObserve p v => fst (observe self p v)
  | CFinalize => fst (finalize g self)
  | CSample _ | CLogProbability _ _ => self
  end.

Definition run (g : gmap string Py.pyval) (self : t) (cs : list call) : t :=
  foldl (step g) self cs.

End defs.
Arguments t {LR}.
End LinRegLearner.

(** ** KnnGaussianLearner *)

Module KnnGaussianLearner.
Section defs.
Context `{NN : NearestNeighbors}.
Context `{KDE : GaussianKde (list (list Q * Q))}.

(** The attributes the class assigns ([k], [observations], [nn]) and
    [__dict__] for whatever else is set on the object from outside; no
    statement of the class assigns any other attribute. *)
Record t : Type := Build {
  k : Z;
  observations : list (list Q * Q);
  nn : option (estimator nn_index);
  __dict__ : gmap string Py.pyval
}.

(** The first statement is [super(LinRegLearner, self).__init__(rng)]
    with [self] a [KnnGaussianLearner]. *)
Definition __init__ (k : Z) : result t :=
  _ ← Py.super Py.cLinRegLearner Py.cKnnGaussianLearner;
  Ok {| k := k; observations := []; nn := None; __dict__ := ∅ |}.

Definition observe (self : t) (params : list Q) (value : Q)
  : t * result unit :=
  ({| k := k self; observations := observations self ++ [(params, value)];
      nn := None; __dict__ := __dict__ self |}, Ok tt).

(** [if x] on a tuple: true when it is not empty. *)
Definition truthy (x : list Q) : bool :=
  match x with [] => false | _ => true end.

(** When nothing can be indexed the method returns a pair of empty
    lists instead of [None]; no caller reads what it returns. *)
Definition finalize (self : t) : t * result unit :=
  match nn self with
  | None =>
      let xs := filter (fun x => truthy x = true) (fst <$> observations self) in
      match xs with
      | [] => (self, Ok tt)
      | _ =>
          match nn_fit xs with
          | Ok ix => ({| k := k self; observations := observations self;
                         nn := Some (Fitted ix); __dict__ := __dict__ self |},
                      Ok tt)
          | Raise e => ({| k := k self; observations := observations self;
                           nn := Some Unfitted; __dict__ := __dict__ self |},
                        Raise e)
          end
      end
  | Some _ => (self, Ok tt)
  end.

(** [self.pairs] *)
Definition getattr_pairs (self : t) : result (list (list Q * Q)) :=
  match __dict__ self !! "pairs"%string with
  | Some (Py.VPairs ps) => Ok ps
  | Some Py.VOpaque => Raise TypeError
  | None => Raise AttributeError
  end.

(** The callee [self.nn.kneighbors] is evaluated first, then its
    arguments, among them [len(self.pairs)]; then the call is made. *)
Definition get_knns (self : t) (params : list Q)
  : result (list (list Q * Q) * list Q) :=
  est ← match nn self with
        | None => Raise AttributeError
        | Some e => Ok e
        end;
  pairs ← getattr_pairs self;
  let n := Z.min (k self) (Z.of_nat (length pairs)) in
  '(distance_array, index_array) ←
     match est with
     | Unfitted => Raise NotFittedError
     | Fitted ix => nn_kneighbors ix params n
     end;
  distances ← Py.getitem distance_array 0;
  indices ← Py.getitem index_array 0;
  elements ← mapM (Py.getitem pairs) indices;
  Ok (elements, distances).

Definition get_density_estimator (self : t) (params : list Q)
  : result kde_model :=
  '(knns, dists) ← get_knns self params;
  gaussian_kde knns.

Definition sample (self : t) (params : list Q) : result Q :=
  kde ← get_density_estimator self params;
  kde_resample1 kde.

(** [assert p != 0.0] before the logarithm. *)
Definition log_probability (self : t) (params : list Q) (value : Q)
  : result R :=
  kde ← get_density_estimator self params;
  p ← kde_evaluate kde value;
  _ ← (if Qeq_bool p 0 then Raise AssertionError else Ok ());
  Py.math_log p.

End defs.
Arguments t {NN}.
End KnnGaussianLearner.

(** ** GibbsLearner *)

Module GibbsLearner.
Section defs.
Context {Rng : Type} `{GD : GibbsDistribution Rng}.

(** [rng] is stored by the base class; [gibbs_distributions] is what
    [gibbs.all_gibbs_distributions(node, rng)] answered at construction. *)
Record t : Type := Build {
  rng : Rng;
  gibbs_distributions : gmap (list Z) gd_obj
}.

Definition __init__ (all_gibbs_distributions : gmap (list Z) gd_obj)
    (rng : Rng) : t :=
  {| rng := rng; gibbs_distributions := all_gibbs_distributions |}.

(** [self.gibbs_distributions[tuple(params)]] *)
Definition distributions_getitem (self : t) (params : list Z)
  : result gd_obj :=
  match gibbs_distributions self !! params with
  | Some d => Ok d
  | None => Raise KeyError
  end.

Definition log_probability (self : t) (params : list Z) (value : Z)
  : t * result R :=
  (self, d ← distributions_getitem self params; gd_log_probability d value).

(** The body of [observe] is [pass]. *)
Definition observe (self : t) (params : list Z) (value : Z)
  : t * result unit :=
  (self, Ok tt).

Definition sample (self : t) (params : list Z) : t * result Z :=
  match distributions_getitem self params with
  | Ok d =>
      let '(rng', v) := gd_sample d (rng self) in
      ({| rng := rng'; gibbs_distributions := gibbs_distributions self |}, v)
  | Raise e => (self, Raise e)
  end.

Definition support (self : t) (params : list Z) : t * result (list Z) :=
  (self, d ← distributions_getitem self params; Ok (gd_support d)).

Definition finalize (self : t) : t * result unit := (self, Ok tt).

(** The object after a sequence of [observe] calls. *)
Definition observe_all (self : t) (obs : list (list Z * Z)) : t :=
  foldl (fun s o => fst (observe s o.1 o.2)) self obs.

End defs.
Arguments t {Rng GD}.
End GibbsLearner.

(** ** LogisticRegressionLearner *)

Definition identity_transformer (xs : list Z) : list Z := xs.

Definition square_transformer (xs : list Z) : list Z :=
  xi ← xs; xj ← xs; [xi * xj].

(** Modelled from the spec: [utils.is_range], whose module is not part
    of the sources at hand; the specification describes the check as
    "declared support must be a contiguous integer range starting at 0". *)
Definition is_range (xs : list Z) : bool :=
  bool_decide (xs = Py.range (length xs)).

Module LogisticRegressionLearner.
Section defs.
Context `{LG : LogisticRegression}.

Record t : Type := Build {
  predictor : lg_model;
  inputs : list (list Z);
  outputs : list Z;
  _support : list Z;
  transform_inputs : list Z -> list Z
}.

Definition __init__ (support : list Z)
    (transform_inputs : option (list Z -> list Z)) : t :=
  {| predictor := lg_new; inputs := []; outputs := [];
     _support := support;
     transform_inputs := default identity_transformer transform_inputs |}.

(** [self.predictor.predict_proba(inputs)[0]] *)
Definition predict_proba0 (self : t) (params : list Z) : result (list Q) :=
  let inputs := transform_inputs self params in
  rows ← lg_predict_proba (predictor self) inputs;
  Py.getitem rows 0.

Definition log_probability (self : t) (params : list Z) (value : Z)
  : result Q :=
  probs ← predict_proba0 self params;
  Py.getitem probs value.

Definition observe (self : t) (params : list Z) (value : Z)
  : t * result unit :=
  let inp := transform_inputs self params in
  ({| predictor := predictor self;
      inputs := inputs self ++ [inp];
      outputs := outputs self ++ [value];
      _support := _support self;
      transform_inputs := transform_inputs self |}, Ok tt).

Definition support (self : t) (params : list Z) : list Z := _support self.

Definition py_assert (b : bool) : result unit :=
  if b then Ok tt else Raise AssertionError.

Definition finalize (self : t) : t * result unit :=
  match lg_fit (predictor self) (inputs self) (outputs self) with
  | Raise e => (self, Raise e)
  | Ok m =>
      ({| predictor := m; inputs := []; outputs := [];
          _support := _support self;
          transform_inputs := transform_inputs self |},
       _ ← py_assert (bool_decide (lg_classes_ m = _support self));
       py_assert (is_range (_support self)))
  end.

(** The object after a sequence of [observe] calls. *)
Definition observe_all (self : t) (obs : list (list Z * Z)) : t :=
  foldl (fun s o => fst (observe s o.1 o.2)) self obs.

End defs.
Arguments t {LG}.
End LogisticRegressionLearner.

(** ** Vocabulary of the properties *)

(** The position a legal index denotes in a sequence of length [len]. *)
Definition position (len i : Z) : nat :=
  if 0 <=? i then Z.to_nat i else Z.to_nat (len + i).

(** Sum of a list of reals. *)
Definition rsum (l : list R) : R := foldr Rplus 0%R l.

Module CountLearnerSpec.
Import CountLearner.

(** Every stored count vector has one entry per element of the support
    and every entry is at least the pseudocount. *)
Definition wf (self : t) : Prop :=
  ∀ key c, counts self !! key = Some c →
    length c = length (_support self) ∧ Forall (fun x => 1 <= x) c.

(** What a client computes to check normalization: it asks
    [log_probability] for each value of [vs] in turn, on the same object,
    and adds up the exponentials. *)
Fixpoint sum_exp_log_probability (self : t) (params : list Z) (vs : list Z)
  : result R :=
  match vs with
  | [] => Ok 0%R
  | v :: vs' =>
      let '(self', r) := log_probability self params v in
      lp ← r;
      rest ← sum_exp_log_probability self' params vs';
      Ok (exp lp + rest)%R
  end.

(** The calls of a sequence that are [observe] calls on [params]. *)
Definition observed (params : list Z) (cs : list call) : Prop :=
  ∃ v, CObserve params v ∈ cs.

End CountLearnerSpec.

Module LinRegLearnerSpec.
Import LinRegLearner.
Section defs.
Context `{LR : LinearRegression}.

(** No [finalize] call of the sequence returned normally. *)
Fixpoint no_finalize_succeeded (g : gmap string Py.pyval) (self : t)
    (cs : list call) : bool :=
  match cs with
  | [] => true
  | c :: cs' =>
      match c with
      | CFinalize => negb (is_ok (snd (finalize g self)))
      | _ => true
      end && no_finalize_succeeded g (step g self c) cs'
  end.

(** The learner holds no fitted model. *)
Definition not_fitted (self : t) : Prop :=
  learner self = None ∨ learner self = Some Unfitted.

End defs.
End LinRegLearnerSpec.

Module LogisticRegressionLearnerSpec.
Section defs.
Context `{LG : LogisticRegression}.

(** What the learner relies on from the classifier, once it is fitted:
    [predict_proba] answers with one row per sample, at least one, and a
    row has one entry per class, each a probability. *)
Definition predict_proba_contract : Prop :=
  ∀ m X y m' x rows,
    lg_fit m X y = Ok m' →
    lg_predict_proba m' x = Ok rows →
    rows ≠ [] ∧
    Forall (fun row =>
              length row = length (lg_classes_ m') ∧
              Forall (fun p => 0 <= p <= 1)%Q row) rows.

End defs.
End LogisticRegressionLearnerSpec.

Module CountLearnerTrace.
Import CountLearner.

(** [value] is an index Python accepts on a vector of [n] entries. *)
Definition legal_index (n value : Z) : bool :=
  (- n <=? value) && (value <? n).

(** How many calls of the sequence are [observe] calls on [params] with
    an index that a vector of [n] entries accepts. *)
Fixpoint accepted_observes (n : Z) (params : list Z) (cs : list call) : Z :=
  match cs with
  | [] => 0
  | CObserve p v :: cs' =>
      (if bool_decide (p = params) && legal_index n v then 1 else 0)
      + accepted_observes n params cs'
  | _ :: cs' => accepted_observes n params cs'
  end.

End CountLearnerTrace.

Module LinRegLearnerTrace.
Import LinRegLearner.

(** The (context, value) pairs the [observe] calls of a sequence pass, in
    call order. *)
Fixpoint observed_pairs (cs : list call) : list (list Q * Q) :=
  match cs with
  | [] => []
  | CObserve p v :: cs' => (p, v) :: observed_pairs cs'
  | _ :: cs' => observed_pairs cs'
  end.

End LinRegLearnerTrace.

Module GibbsLearnerTrace.
Import GibbsLearner.
Section defs.
Context {Rng : Type} `{GD : GibbsDistribution Rng}.

Inductive call : Type :=
  | CObserve (params : list Z) (value : Z)
  | CLogProbability (params : list Z) (value : Z)
  | CSample (params : list Z)
  | CSupport (params : list Z)
  | CFinalize.

Definition step (self : t) (c : call) : t :=
  match c with
  | CObserve p v => fst (observe self p v)
  | CLogProbability p v => fst (log_probability self p v)
  | CSample p => fst (sample self p)
  | CSupport p => fst (support self p)
  | CFinalize => fst (finalize self)
  end.

Definition run (self : t) (cs : list call) : t := foldl step self cs.

Definition is_sample (c : call) : bool :=
  match c with CSample _ => true | _ => false end.

End defs.
End GibbsLearnerTrace.

(** ** Stand-ins for the numeric library, for concrete runs *)

(** A regression that always fits and predicts 0. *)
Definition zero_regression : LinearRegression :=
  {| lr_model := unit;
     lr_fit := fun _ _ => Ok ();
     lr_predict := fun _ _ => Ok 0%Q |}.

(** A classifier whose classes are the sorted distinct labels it was
    fitted on and which gives every class the same probability. *)
Definition uniform_classifier : LogisticRegression :=
  {| lg_model := list Z;
     lg_new := [];
     lg_fit := fun _ _ y => Ok (merge_sort Z.le (remove_dups y));
     lg_classes_ := fun m => m;
     lg_predict_proba := fun m _ =>
       Ok [replicate (length m) (1 # Pos.of_nat (length m))%Q] |}.

(** The same classifier, except that [fit] refuses an empty sample. *)
Definition strict_classifier : LogisticRegression :=
  {| lg_model := list Z;
     lg_new := [];
     lg_fit := fun _ _ y =>
       match y with
       | [] => Raise ValueError
       | _ => Ok (merge_sort Z.le (remove_dups y))
       end;
     lg_classes_ := fun m => m;
     lg_predict_proba := fun m _ =>
       Ok [replicate (length m) (1 # Pos.of_nat (length m))%Q] |}.

(** Distribution objects that are their own support, with a counter as
    the sampling state. *)
Definition cyclic_distribution : GibbsDistribution nat :=
  {| gd_obj := list Z;
     gd_log_probability := fun d _ => Ok (- ln (INR (length d)))%R;
     gd_sample := fun d rng =>
       (S rng, match d !! (rng `mod` length d)%nat with
               | Some v => Ok v
               | None => Raise IndexError
               end);
     gd_support := fun d => d |}.

(** A neighbour index that answers with the first [n] points it was
    fitted on, all at distance 0. *)
Definition first_neighbors : NearestNeighbors :=
  {| nn_index := list (list Q);
     nn_fit := fun xs => Ok xs;
     nn_kneighbors := fun _ _ n =>
       Ok ([replicate (Z.to_nat n) 0%Q], [Py.range (Z.to_nat n)]) |}.

(** * Properties *)

(** ** Python indexing *)

Lemma norm_index_nonneg len i :
  0 <= i < len → Py.norm_index len i = Ok (Z.to_nat i).
Proof.
  intros H. unfold Py.norm_index.
  replace (0 <=? i) with true by lia. replace (i <? len) with true by lia.
  reflexivity.
Qed.

Lemma norm_index_neg len i :
  - len <= i < 0 → Py.norm_index len i = Ok (Z.to_nat (len + i)).
Proof.
  intros H. unfold Py.norm_index.
  replace (0 <=? i) with false by lia.
  replace (- len <=? i) with true by lia. replace (i <? 0) with true by lia.
  reflexivity.
Qed.

Lemma norm_index_out len i :
  ¬ (- len <= i < len) → Py.norm_index len i = Raise IndexError.
Proof.
  intros H. unfold Py.norm_index.
  destruct (Z.leb_spec 0 i), (Z.ltb_spec i len),
    (Z.leb_spec (- len) i), (Z.ltb_spec i 0); simpl; try reflexivity; lia.
Qed.

Lemma norm_index_in len i :
  - len <= i < len → Py.norm_index len i = Ok (position len i) ∧
                     (position len i < Z.to_nat len)%nat.
Proof.
  intros H. unfold position. destruct (Z.leb_spec 0 i).
  - rewrite norm_index_nonneg by lia. split; [done | lia].
  - rewrite norm_index_neg by lia. split; [done | lia].
Qed.

Lemma getitem_in {A} `{!Inhabited A} (l : list A) i :
  - Z.of_nat (length l) <= i < Z.of_nat (length l) →
  Py.getitem l i = Ok (l !!! position (Z.of_nat (length l)) i).
Proof.
  intros H. unfold Py.getitem.
  destruct (norm_index_in _ _ H) as [-> Hlt]. simpl.
  destruct (lookup_lt_is_Some_2 l (position (Z.of_nat (length l)) i)) as [a Ha];
    [lia |].
  rewrite Ha. by rewrite (list_lookup_total_correct _ _ _ Ha).
Qed.

Lemma getitem_out {A} (l : list A) i :
  ¬ (- Z.of_nat (length l) <= i < Z.of_nat (length l)) →
  Py.getitem l i = Raise IndexError.
Proof. intros H. unfold Py.getitem. by rewrite norm_index_out. Qed.

Lemma setitem_in {A} (l : list A) i a :
  - Z.of_nat (length l) <= i < Z.of_nat (length l) →
  Py.setitem l i a = Ok (<[position (Z.of_nat (length l)) i := a]> l).
Proof.
  intros H. unfold Py.setitem. by destruct (norm_index_in _ _ H) as [-> _].
Qed.

Lemma sum_ge_length (c : list Z) :
  Forall (fun x => 1 <= x) c → Z.of_nat (length c) <= Py.sum c.
Proof. induction 1; simpl in *; lia. Qed.

Lemma sum_replicate n : Py.sum (replicate n 1) = Z.of_nat n.
Proof. induction n; simpl in *; lia. Qed.

Lemma lookup_le_sum (c : list Z) j x :
  Forall (fun x => 1 <= x) c → c !! j = Some x →
  1 <= x ∧ x + (Z.of_nat (length c) - 1) <= Py.sum c.
Proof.
  intros Hc. revert j. induction Hc as [|y c Hy Hc IH]; intros j Hj; [done |].
  destruct j as [|j]; simpl in *.
  - injection Hj as ->. pose proof (sum_ge_length c Hc). lia.
  - destruct (IH j Hj). lia.
Qed.

(** ** CountLearner: the count vectors *)

Section count_learner.
Import CountLearner CountLearnerSpec.

Lemma default_factory_length self :
  length (default_factory self) = length (_support self).
Proof. apply length_replicate. Qed.

Lemma default_factory_ones self : Forall (fun x => 1 <= x) (default_factory self).
Proof. apply Forall_replicate. lia. Qed.

Lemma counts_getitem_snd self key :
  snd (counts_getitem self key) = counts_of self key.
Proof.
  unfold counts_getitem, counts_of. by destruct (counts self !! key).
Qed.

Lemma counts_getitem_support self key :
  _support (fst (counts_getitem self key)) = _support self.
Proof. unfold counts_getitem. by destruct (counts self !! key). Qed.

Lemma counts_getitem_lookup self key :
  counts (fst (counts_getitem self key)) !! key = Some (counts_of self key).
Proof.
  unfold counts_getitem, counts_of.
  destruct (counts self !! key) eqn:E; simpl; [done |].
  by rewrite lookup_insert_eq.
Qed.

Lemma counts_getitem_lookup_ne self key key' :
  key ≠ key' →
  counts (fst (counts_getitem self key)) !! key' = counts self !! key'.
Proof.
  intros Hne. unfold counts_getitem.
  destruct (counts self !! key) eqn:E; simpl; [done |].
  by rewrite lookup_insert_ne.
Qed.

Lemma counts_getitem_counts_of self key key' :
  counts_of (fst (counts_getitem self key)) key' = counts_of self key'.
Proof.
  unfold counts_of at 1. unfold default_factory.
  rewrite counts_getitem_support.
  destruct (decide (key = key')) as [<- | Hne].
  - by rewrite counts_getitem_lookup.
  - by rewrite counts_getitem_lookup_ne.
Qed.

Lemma counts_of_wf self key :
  wf self →
  length (counts_of self key) = length (_support self) ∧
  Forall (fun x => 1 <= x) (counts_of self key).
Proof.
  intros Hwf. unfold counts_of.
  destruct (counts self !! key) eqn:E; simpl.
  - by apply (Hwf key).
  - split; [apply default_factory_length | apply default_factory_ones].
Qed.

Lemma counts_getitem_wf self key : wf self → wf (fst (counts_getitem self key)).
Proof.
  intros Hwf key' c. rewrite counts_getitem_support.
  destruct (decide (key = key')) as [<- | Hne].
  - rewrite counts_getitem_lookup. intros [= <-]. by apply counts_of_wf.
  - rewrite counts_getitem_lookup_ne by done. apply Hwf.
Qed.

Lemma init_wf support : wf (__init__ support).
Proof. intros key c. unfold __init__. simpl. by rewrite lookup_empty. Qed.

(** [log_probability] changes the object exactly as the lookup does. *)
Lemma log_probability_fst self params value :
  fst (log_probability self params value) = fst (counts_getitem self params).
Proof.
  unfold log_probability, probability.
  by destruct (counts_getitem self params).
Qed.

Lemma probability_snd self params value :
  snd (probability self params value) =
  (cv ← Py.getitem (counts_of self params) value;
   Py.truediv cv (Py.sum (counts_of self params))).
Proof.
  unfold probability. rewrite <- counts_getitem_snd.
  by destruct (counts_getitem self params).
Qed.

Lemma log_probability_snd self params value :
  snd (log_probability self params value) =
  (p ← snd (probability self params value); Py.math_log p).
Proof.
  unfold log_probability. by destruct (probability self params value).
Qed.

(** What [observe] answers and the object it leaves, in terms of the
    count vector of the context. *)
Lemma observe_in self params value :
  let c := counts_of self params in
  let n := Z.of_nat (length c) in
  - n <= value < n →
  observe self params value =
    ({| _support := _support self;
        counts := <[params := alter (fun x => x + 1) (position n value) c]>
                    (counts self) |}, Ok tt).
Proof.
  intros c n H. unfold observe.
  pose proof (counts_getitem_snd self params) as Hs.
  pose proof (counts_getitem_support self params) as Hsup.
  assert (counts (fst (counts_getitem self params)) =
          <[params := c]> (counts self)) as Hc.
  { unfold counts_getitem, c, counts_of.
    destruct (counts self !! params) eqn:E; simpl; [| done].
    by rewrite insert_id. }
  destruct (counts_getitem self params) as [self' c']. simpl in *. subst c'.
  fold c. rewrite getitem_in by (fold n; lia). simpl.
  rewrite setitem_in by (fold n; lia). fold n. simpl.
  rewrite Hsup, Hc, insert_insert_eq. do 3 f_equal.
  apply list_eq. intros j.
  destruct (decide (j = position n value)) as [-> | Hne].
  - rewrite list_lookup_alter_eq.
    assert (position n value < length c)%nat as Hlt.
    { destruct (norm_index_in n value H) as [_ Hlt]. unfold n in *. lia. }
    rewrite list_lookup_insert_eq by done.
    destruct (lookup_lt_is_Some_2 c (position n value)) as [a Ha]; [done |].
    rewrite Ha. simpl. by rewrite (list_lookup_total_correct _ _ _ Ha).
  - rewrite list_lookup_alter_ne by done. by rewrite list_lookup_insert_ne.
Qed.

Lemma observe_out self params value :
  let n := Z.of_nat (length (counts_of self params)) in
  ¬ (- n <= value < n) →
  observe self params value = (fst (counts_getitem self params), Raise IndexError).
Proof.
  intros n H. unfold observe.
  pose proof (counts_getitem_snd self params) as Hs.
  destruct (counts_getitem self params) as [self' c']. simpl in *. subst c'.
  by rewrite getitem_out.
Qed.

Lemma observe_wf self params value : wf self → wf (fst (observe self params value)).
Proof.
  intros Hwf.
  destruct (counts_of_wf self params Hwf) as [Hlen Hall].
  destruct (decide (- Z.of_nat (length (counts_of self params)) <= value
                    < Z.of_nat (length (counts_of self params)))) as [Hin | Hout].
  - rewrite (observe_in self params value Hin). simpl.
    intros key c. simpl.
    destruct (decide (params = key)) as [<- | Hne].
    + rewrite lookup_insert_eq. intros [= <-]. split.
      * by rewrite length_alter.
      * apply Forall_alter; [done |]. intros x _ Hx. simpl. lia.
    + rewrite lookup_insert_ne by done. apply Hwf.
  - rewrite (observe_out self params value Hout). simpl.
    by apply counts_getitem_wf.
Qed.

Lemma observe_support self params value :
  _support (fst (observe self params value)) = _support self.
Proof.
  destruct (decide (- Z.of_nat (length (counts_of self params)) <= value
                    < Z.of_nat (length (counts_of self params)))) as [Hin | Hout].
  - by rewrite (observe_in self params value Hin).
  - rewrite (observe_out self params value Hout). simpl.
    apply counts_getitem_support.
Qed.

Lemma observe_counts_of_ne self params value key :
  params ≠ key →
  counts_of (fst (observe self params value)) key = counts_of self key.
Proof.
  intros Hne.
  destruct (decide (- Z.of_nat (length (counts_of self params)) <= value
                    < Z.of_nat (length (counts_of self params)))) as [Hin | Hout].
  - rewrite (observe_in self params value Hin). unfold counts_of. simpl.
    by rewrite lookup_insert_ne.
  - rewrite (observe_out self params value Hout). simpl.
    apply counts_getitem_counts_of.
Qed.

Lemma step_wf self c : wf self → wf (step self c).
Proof.
  intros Hwf. destruct c; simpl; [by apply observe_wf | | | done | done].
  - rewrite log_probability_fst. by apply counts_getitem_wf.
  - by apply counts_getitem_wf.
Qed.

Lemma step_support self c : _support (step self c) = _support self.
Proof.
  destruct c; simpl; [apply observe_support | | | done | done].
  - rewrite log_probability_fst. apply counts_getitem_support.
  - apply counts_getitem_support.
Qed.

Lemma run_wf cs : ∀ self, wf self → wf (run self cs).
Proof.
  induction cs as [|c cs IH]; intros self Hwf; [done |].
  apply IH. by apply step_wf.
Qed.

Lemma run_support cs : ∀ self, _support (run self cs) = _support self.
Proof.
  induction cs as [|c cs IH]; intros self; [done |].
  simpl. unfold run in IH. rewrite IH. apply step_support.
Qed.

(** A context that no [observe] call names keeps the vector of ones. *)
Lemma step_counts_of self c key :
  (∀ v, c ≠ CObserve key v) → counts_of (step self c) key = counts_of self key.
Proof.
  intros Hc. destruct c as [p v | p v | p | p |]; simpl; [| | | done | done].
  - apply observe_counts_of_ne. intros ->. by apply (Hc v).
  - rewrite log_probability_fst. apply counts_getitem_counts_of.
  - apply counts_getitem_counts_of.
Qed.

Lemma run_counts_of cs : ∀ self key,
  ¬ observed key cs → counts_of (run self cs) key = counts_of self key.
Proof.
  induction cs as [|c cs IH]; intros self key Hno; [done |].
  simpl. unfold run in IH. rewrite IH.
  - apply step_counts_of. intros v ->. apply Hno. exists v. apply list_elem_of_here.
  - intros [v Hv]. apply Hno. exists v. by apply list_elem_of_further.
Qed.

(** ** CountLearner: the quotient and its logarithm *)

Lemma Q2R_truediv a b :
  b ≠ 0 → Q2R (inject_Z a / inject_Z b) = (IZR a / IZR b)%R.
Proof.
  intros Hb. rewrite Q2R_div.
  - unfold Q2R. simpl. by rewrite !Rinv_1, !Rmult_1_r.
  - unfold Qeq. simpl. lia.
Qed.

Lemma math_log_pos p : (0 < Q2R p)%R → Py.math_log p = Ok (ln (Q2R p)).
Proof.
  intros Hp. unfold Py.math_log.
  destruct (Qle_bool p 0) eqn:E; [| done].
  apply Qle_bool_iff, Qle_Rle in E.
  replace (Q2R 0) with 0%R in E by (unfold Q2R; simpl; lra). lra.
Qed.

Lemma quotient_bounds (c : list Z) j x :
  Forall (fun x => 1 <= x) c → c !! j = Some x →
  (0 < IZR x / IZR (Py.sum c) <= 1)%R ∧
  ((2 <= length c)%nat → (IZR x / IZR (Py.sum c) < 1)%R).
Proof.
  intros Hc Hj. destruct (lookup_le_sum c j x Hc Hj) as [Hx Hs].
  pose proof (lookup_lt_Some _ _ _ Hj) as Hlen.
  assert (0 < IZR (Py.sum c))%R as HS by (apply IZR_lt; lia).
  assert (1 <= IZR x)%R as Hx1 by (apply IZR_le; lia).
  assert (IZR x <= IZR (Py.sum c))%R as Hle by (apply IZR_le; lia).
  repeat split.
  - apply Rdiv_lt_0_compat; lra.
  - apply Rmult_le_reg_r with (IZR (Py.sum c)); [lra |].
    unfold Rdiv. rewrite Rmult_assoc, Rinv_l by lra. lra.
  - intros H2. apply Rmult_lt_reg_r with (IZR (Py.sum c)); [lra |].
    unfold Rdiv. rewrite Rmult_assoc, Rinv_l by lra.
    rewrite Rmult_1_l, Rmult_1_r. apply IZR_lt. lia.
Qed.

(** The answer of [log_probability] for a legal index, on an object
    whose vectors are well formed. *)
Lemma log_probability_in self params value :
  wf self →
  let c := counts_of self params in
  let n := Z.of_nat (length c) in
  - n <= value < n →
  let x := c !!! position n value in
  snd (probability self params value)
    = Ok (Qdiv (inject_Z x) (inject_Z (Py.sum c))) ∧
  snd (log_probability self params value)
    = Ok (ln (IZR x / IZR (Py.sum c))) ∧
  c !! position n value = Some x.
Proof.
  intros Hwf c n Hin x.
  destruct (counts_of_wf self params Hwf) as [Hlen Hall]. fold c in Hlen, Hall.
  assert (position n value < length c)%nat as Hlt.
  { destruct (norm_index_in n value Hin) as [_ Hlt]. unfold n in *. lia. }
  destruct (lookup_lt_is_Some_2 c (position n value) Hlt) as [a Ha].
  assert (x = a) as -> by (by apply list_lookup_total_correct).
  destruct (lookup_le_sum c _ a Hall Ha) as [Ha1 HaS].
  assert (Py.sum c ≠ 0) as HS by lia.
  assert (snd (probability self params value)
          = Ok (Qdiv (inject_Z a) (inject_Z (Py.sum c)))) as Hp.
  { rewrite probability_snd. fold c. rewrite getitem_in by (fold n; lia).
    fold n. rewrite (list_lookup_total_correct _ _ _ Ha). simpl.
    unfold Py.truediv. by destruct (Z.eqb_spec (Py.sum c) 0). }
  split; [done |]. split; [| done].
  rewrite log_probability_snd, Hp. simpl.
  rewrite math_log_pos; rewrite Q2R_truediv by done; [done |].
  by apply (quotient_bounds c _ a Hall Ha).
Qed.

Lemma position_nonneg len i : 0 <= i → position len i = Z.to_nat i.
Proof. intros H. unfold position. by destruct (Z.leb_spec 0 i); [| lia]. Qed.

Lemma position_neg len i : i < 0 → position len i = Z.to_nat (len + i).
Proof. intros H. unfold position. by destruct (Z.leb_spec 0 i); [lia |]. Qed.

Lemma ln_le_0 x : (0 < x <= 1)%R → (ln x <= 0)%R.
Proof.
  intros [H0 [H1 | ->]].
  - left. rewrite <- ln_1. by apply ln_increasing.
  - right. apply ln_1.
Qed.

Lemma ln_lt_0 x : (0 < x < 1)%R → (ln x < 0)%R.
Proof. intros [H0 H1]. rewrite <- ln_1. by apply ln_increasing. Qed.

(** C1. With support [[0,1,2]], after [observe((0,), 1)] twice,
    [log_probability((0,), 1)] is [log(3/5)] and [log_probability((0,), 0)]
    is [log(1/5)]. *)
Theorem count_learner_three_fifths :
  let l0 := __init__ [0; 1; 2] in
  let l1 := fst (observe l0 [0] 1) in
  let l2 := fst (observe l1 [0] 1) in
  let l3 := fst (log_probability l2 [0] 1) in
  snd (observe l0 [0] 1) = Ok tt ∧
  snd (observe l1 [0] 1) = Ok tt ∧
  snd (log_probability l2 [0] 1) = Ok (ln (3 / 5)) ∧
  snd (log_probability l3 [0] 0) = Ok (ln (1 / 5)).
Proof.
  intros l0 l1 l2 l3.
  assert (snd (probability l2 [0] 1) = Ok (3 # 5)%Q) as H1
    by (vm_compute; reflexivity).
  assert (snd (probability l3 [0] 0) = Ok (1 # 5)%Q) as H0.
  { unfold l3. rewrite log_probability_fst. vm_compute. reflexivity. }
  assert (Q2R (3 # 5) = 3 / 5)%R as E1 by (unfold Q2R; simpl; lra).
  assert (Q2R (1 # 5) = 1 / 5)%R as E0 by (unfold Q2R; simpl; lra).
  split; [vm_compute; reflexivity |]. split; [vm_compute; reflexivity |].
  split.
  - rewrite log_probability_snd, H1. simpl.
    rewrite math_log_pos; rewrite E1; [done | lra].
  - rewrite log_probability_snd, H0. simpl.
    rewrite math_log_pos; rewrite E0; [done | lra].
Qed.

(** C5. In every state a client can reach, every stored count is at
    least 1; for an index of the support the quotient is positive and at
    most 1, its logarithm is defined and not positive, and for a support
    of two or more values the quotient is below 1 and the logarithm is
    negative. *)
Theorem count_learner_positive support cs params value :
  let self := run (__init__ support) cs in
  0 <= value < Z.of_nat (length support) →
  (∀ key c, counts self !! key = Some c → Forall (fun x => 1 <= x) c) ∧
  Forall (fun x => 1 <= x) (counts_of self params) ∧
  ∃ p : Q,
    snd (probability self params value) = Ok p ∧
    snd (log_probability self params value) = Ok (ln (Q2R p)) ∧
    (0 < Q2R p <= 1)%R ∧ (ln (Q2R p) <= 0)%R ∧
    ((2 <= length support)%nat → (Q2R p < 1)%R ∧ (ln (Q2R p) < 0)%R).
Proof.
  intros self Hv.
  assert (wf self) as Hwf by apply run_wf, init_wf.
  assert (_support self = support) as Hsup by apply run_support.
  destruct (counts_of_wf self params Hwf) as [Hlen Hall].
  rewrite Hsup in Hlen.
  split; [intros key c Hc; by apply (Hwf key) |]. split; [done |].
  destruct (log_probability_in self params value Hwf) as (Hp & Hl & Hx);
    [rewrite Hlen; lia |].
  set (c := counts_of self params) in *.
  set (x := c !!! position (Z.of_nat (length c)) value) in *.
  destruct (lookup_le_sum c _ x Hall Hx) as [Hx1 HxS].
  destruct (quotient_bounds c _ x Hall Hx) as [Hb Hb2].
  exists (Qdiv (inject_Z x) (inject_Z (Py.sum c))).
  rewrite Q2R_truediv by lia.
  split; [done |]. split; [done |]. split; [done |].
  split; [by apply ln_le_0 |].
  intros H2. rewrite <- Hlen in H2. specialize (Hb2 H2).
  split; [done |]. apply ln_lt_0. lra.
Qed.

(** C5 at support [[0,1,2]], after one [observe((0,), 1)]. *)
Lemma count_learner_positive_witness :
  ∃ p : Q,
    snd (probability (run (__init__ [0; 1; 2]) [CObserve [0] 1]) [0] 1) = Ok p ∧
    (ln (Q2R p) < 0)%R.
Proof.
  destruct (count_learner_positive [0; 1; 2] [CObserve [0] 1] [0] 1)
    as (_ & _ & p & Hp & _ & _ & _ & H2).
  - simpl. lia.
  - exists p. split; [exact Hp |]. apply H2. simpl. lia.
Defined.

(** C6, as the code has it.  In a reachable state [observe] raises
    [IndexError] (the specification's InvalidValueError) exactly when
    [value] is outside [-n <= value < n], [n] the size of the support;
    otherwise it answers normally.  For [0 <= value < n] it adds one to the
    count at [value] for that context; a negative legal index counts from
    the end of the vector.  The vectors of other contexts stay as they
    were. *)
Theorem observe_index support cs params value :
  let self := run (__init__ support) cs in
  let n := Z.of_nat (length support) in
  let c := counts_of self params in
  let self' := fst (observe self params value) in
  let r := snd (observe self params value) in
  (r = Raise IndexError ↔ ¬ (- n <= value < n)) ∧
  (r = Ok tt ↔ - n <= value < n) ∧
  (0 <= value < n →
     counts_of self' params = alter (fun x => x + 1) (Z.to_nat value) c) ∧
  (- n <= value < 0 →
     counts_of self' params = alter (fun x => x + 1) (Z.to_nat (n + value)) c) ∧
  (¬ (- n <= value < n) → counts_of self' params = c) ∧
  (∀ key, key ≠ params → counts_of self' key = counts_of self key).
Proof.
  intros self n c self' r.
  assert (wf self) as Hwf by apply run_wf, init_wf.
  assert (_support self = support) as Hsup by apply run_support.
  destruct (counts_of_wf self params Hwf) as [Hlen _].
  rewrite Hsup in Hlen.
  assert (Z.of_nat (length (counts_of self params)) = n) as Hn
    by (unfold n; lia).
  assert (∀ key, key ≠ params → counts_of self' key = counts_of self key) as Hne.
  { intros key Hk. by apply observe_counts_of_ne. }
  destruct (decide (- n <= value < n)) as [Hin | Hout].
  - pose proof (observe_in self params value) as Ho. simpl in Ho.
    rewrite Hn in Ho. specialize (Ho Hin).
    assert (counts_of self' params
            = alter (fun x => x + 1) (position n value) c) as Hc.
    { unfold self'. rewrite Ho. unfold counts_of at 1. simpl.
      by rewrite lookup_insert_eq. }
    unfold r. rewrite Ho. simpl.
    split; [split; [done | tauto] |]. split; [tauto |].
    split; [intros H; by rewrite Hc, position_nonneg by lia |].
    split; [intros H; by rewrite Hc, position_neg by lia |].
    split; [tauto | done].
  - pose proof (observe_out self params value) as Ho. simpl in Ho.
    rewrite Hn in Ho. specialize (Ho Hout).
    unfold r, self'. rewrite Ho. simpl.
    split; [tauto |]. split; [split; [done | tauto] |].
    split; [lia |]. split; [lia |].
    split; [intros _; apply counts_getitem_counts_of |].
    intros key Hk. apply counts_getitem_counts_of.
Qed.

(** C6, counterexample.  With support [[0,1,2]], [observe((0,), -1)]
    does not fail although [-1] is not an index [0 <= value < 3]: it adds
    one to the last count. *)
Lemma observe_negative_index_accepted :
  let self := __init__ [0; 1; 2] in
  ¬ (0 <= -1 < Z.of_nat (length (_support self))) ∧
  snd (observe self [0] (-1)) = Ok tt ∧
  counts_of (fst (observe self [0] (-1))) [0] = [1; 1; 2].
Proof.
  split; [simpl; lia |]. split; vm_compute; reflexivity.
Qed.

(** C10. For a support of [n >= 1] values and a context that no
    [observe] call has named, [log_probability] answers [log(1/n)] for
    every index of the support, and the query leaves the context bound to
    a vector of [n] ones. *)
Theorem unseen_context_uniform support cs params value :
  let n := length support in
  let self := run (__init__ support) cs in
  (1 <= n)%nat →
  ¬ observed params cs →
  0 <= value < Z.of_nat n →
  snd (log_probability self params value) = Ok (ln (1 / INR n)) ∧
  counts (fst (log_probability self params value)) !! params
    = Some (replicate n 1).
Proof.
  intros n self Hn Hno Hv.
  assert (wf self) as Hwf by apply run_wf, init_wf.
  assert (_support self = support) as Hsup by apply run_support.
  assert (counts_of self params = replicate n 1) as Hc.
  { unfold self. rewrite run_counts_of by done. unfold counts_of. simpl.
    by rewrite lookup_empty. }
  split.
  - destruct (log_probability_in self params value Hwf) as (_ & Hl & Hx);
      [rewrite Hc, length_replicate; lia |].
    rewrite Hl. rewrite Hc in *. rewrite sum_replicate.
    rewrite length_replicate in Hx.
    apply lookup_replicate in Hx as [Hx _].
    rewrite length_replicate.
    rewrite (list_lookup_total_correct (replicate n 1) _ 1).
    + by rewrite INR_IZR_INZ.
    + apply lookup_replicate. split; [done |].
      destruct (norm_index_in (Z.of_nat n) value) as [_ Hlt]; lia.
  - rewrite log_probability_fst, counts_getitem_lookup. by rewrite Hc.
Qed.

(** C10 at support [[0,1,2]], for the context [(2,)] after calls on
    other contexts. *)
Lemma unseen_context_uniform_witness :
  snd (log_probability
         (run (__init__ [0; 1; 2]) [CObserve [0] 1; CLogProbability [1] 2])
         [2] 1)
  = Ok (ln (1 / INR 3)).
Proof.
  apply (unseen_context_uniform [0; 1; 2]
           [CObserve [0] 1; CLogProbability [1] 2] [2] 1).
  - simpl. lia.
  - intros [v Hv]. apply list_elem_of_In in Hv. simpl in Hv.
    destruct Hv as [Hv | [Hv | []]]; discriminate Hv.
  - simpl. lia.
Defined.

(** ** CountLearner: normalization *)

Lemma sum_exp_log_probability_in vs : ∀ self params,
  wf self →
  let c := counts_of self params in
  Forall (fun v => 0 <= v < Z.of_nat (length c)) vs →
  sum_exp_log_probability self params vs
  = Ok (rsum ((fun v => IZR (c !!! Z.to_nat v) / IZR (Py.sum c))%R <$> vs)).
Proof.
  induction vs as [|v vs IH]; intros self params Hwf c Hvs; [done |].
  apply Forall_cons in Hvs as [Hv Hvs]. simpl.
  pose proof (log_probability_fst self params v) as Hf.
  destruct (log_probability_in self params v Hwf) as (_ & Hl & Hx);
    [fold c; lia |].
  fold c in Hl, Hx. rewrite position_nonneg in Hl, Hx by lia.
  destruct (log_probability self params v) as [self' r]. simpl in *.
  subst self' r. simpl.
  destruct (counts_of_wf self params Hwf) as [_ Hall]. fold c in Hall.
  destruct (quotient_bounds c _ _ Hall Hx) as [[Hpos _] _].
  rewrite IH; [| by apply counts_getitem_wf |];
    rewrite counts_getitem_counts_of; [| done].
  simpl. fold c. by rewrite exp_ln.
Qed.

Lemma fmap_lookup_total_seq (c : list Z) :
  (fun i => c !!! i) <$> seq 0 (length c) = c.
Proof.
  apply list_eq. intros i. rewrite list_lookup_fmap.
  destruct (decide (i < length c)%nat) as [Hlt | Hge].
  - rewrite lookup_seq_lt by done. simpl.
    destruct (lookup_lt_is_Some_2 c i Hlt) as [x Hx].
    by rewrite Hx, (list_lookup_total_correct _ _ _ Hx).
  - rewrite lookup_seq_ge by lia. by rewrite lookup_ge_None_2 by lia.
Qed.

Lemma rsum_quotients (c : list Z) (s : R) :
  rsum ((fun x => IZR x / s)%R <$> c) = (IZR (Py.sum c) / s)%R.
Proof.
  induction c as [|x c IH].
  - simpl. unfold Rdiv. by rewrite Rmult_0_l.
  - change (IZR x / s + rsum ((fun x => IZR x / s) <$> c)
            = IZR (x + Py.sum c) / s)%R.
    rewrite IH, plus_IZR. unfold Rdiv. lra.
Qed.

(** C3, as the code has it.  When the declared support is the index
    range [[0, ..., n-1]] with [n >= 1], then in every reachable state and
    for every context the exponentials of [log_probability] over the
    support add up to 1. *)
Theorem sum_exp_log_probability_one n cs params :
  (1 <= n)%nat →
  sum_exp_log_probability (run (__init__ (Py.range n)) cs) params (Py.range n)
  = Ok 1%R.
Proof.
  intros Hn. set (self := run (__init__ (Py.range n)) cs).
  assert (wf self) as Hwf by apply run_wf, init_wf.
  assert (_support self = Py.range n) as Hsup by apply run_support.
  destruct (counts_of_wf self params Hwf) as [Hlen Hall].
  rewrite Hsup in Hlen. unfold Py.range in Hlen.
  rewrite length_fmap, length_seq in Hlen.
  rewrite sum_exp_log_probability_in; [| done |].
  - f_equal. unfold Py.range. rewrite <- list_fmap_compose.
    rewrite (list_fmap_ext _
               ((fun x => (IZR x / IZR (Py.sum (counts_of self params)))%R)
                ∘ (fun i => counts_of self params !!! i)) (seq 0 n)).
    + rewrite list_fmap_compose. rewrite <- Hlen at 1.
      rewrite fmap_lookup_total_seq, rsum_quotients.
      pose proof (sum_ge_length _ Hall).
      apply Rdiv_diag. apply not_0_IZR. lia.
    + intros i x _. simpl. by rewrite Nat2Z.id.
  - unfold Py.range. apply Forall_fmap, Forall_forall.
    intros i Hi. apply elem_of_seq in Hi. simpl. lia.
Qed.

(** C3 at support [range(3)], after two [observe((0,), 1)]. *)
Lemma sum_exp_log_probability_one_witness :
  sum_exp_log_probability
    (run (__init__ (Py.range 3)) [CObserve [0] 1; CObserve [0] 1]) [0]
    (Py.range 3)
  = Ok 1%R.
Proof. apply sum_exp_log_probability_one. lia. Defined.

(** C3, counterexample.  With support [[1,2,3]] the query for the
    supported value [3] raises [IndexError], so there is no sum; with an
    empty support the sum is the empty one, 0. *)
Lemma sum_exp_log_probability_not_one :
  sum_exp_log_probability (__init__ [1; 2; 3]) [0] [1; 2; 3] = Raise IndexError ∧
  sum_exp_log_probability (__init__ []) [0] [] = Ok 0%R ∧
  sum_exp_log_probability (__init__ []) [0] [] ≠ Ok 1%R.
Proof.
  split; [| split; [done | simpl; intros [= H]; lra]].
  assert (∀ self, snd (probability self [0] 3) = Raise IndexError →
                  snd (log_probability self [0] 3) = Raise IndexError) as Hraise.
  { intros self H. by rewrite log_probability_snd, H. }
  assert (∀ self v q, snd (probability self [0] v) = Ok q → (0 < Q2R q)%R →
                      snd (log_probability self [0] v) = Ok (ln (Q2R q))) as Hok.
  { intros self v q H Hq. rewrite log_probability_snd, H. simpl.
    by apply math_log_pos. }
  assert (0 < Q2R (1 # 3))%R as Hthird by (unfold Q2R; simpl; lra).
  set (l0 := __init__ [1; 2; 3]).
  set (l1 := fst (counts_getitem l0 [0])).
  assert (snd (log_probability l0 [0] 1) = Ok (ln (Q2R (1 # 3)))) as H1.
  { apply Hok; [vm_compute; reflexivity | done]. }
  assert (snd (log_probability l1 [0] 2) = Ok (ln (Q2R (1 # 3)))) as H2.
  { apply Hok; [vm_compute; reflexivity | done]. }
  assert (snd (log_probability (fst (counts_getitem l1 [0])) [0] 3)
          = Raise IndexError) as H3.
  { apply Hraise. vm_compute. reflexivity. }
  simpl.
  pose proof (log_probability_fst l0 [0] 1) as F1.
  destruct (log_probability l0 [0] 1) as [s1 r1]. simpl in *. subst s1 r1.
  simpl. fold l1.
  pose proof (log_probability_fst l1 [0] 2) as F2.
  destruct (log_probability l1 [0] 2) as [s2 r2]. simpl in *. subst s2 r2.
  simpl.
  destruct (log_probability (fst (counts_getitem l1 [0])) [0] 3) as [s3 r3].
  simpl in *. by subst r3.
Qed.

End count_learner.

(** ** LinRegLearner *)

Section lin_reg_learner.
Import LinRegLearner LinRegLearnerSpec.
Context `{LR : LinearRegression}.

Lemma learn_globals_observations : learn_globals !! "observations"%string = None.
Proof. vm_compute. reflexivity. Qed.

(** C2. [finalize] on a learner without a fitted model: the code
    creates the estimator and then evaluates the bare name
    [observations], which the module does not bind, so the call raises
    [NameError] whatever the learner has accumulated, and leaves the
    unfitted estimator in place. *)
Theorem linreg_finalize_name_error (obs : list (list Q * Q)) :
  finalize learn_globals {| observations := obs; learner := None |}
  = ({| observations := obs; learner := Some Unfitted |}, Raise NameError).
Proof.
  unfold finalize. cbn [learner observations].
  by rewrite learn_globals_observations.
Qed.

Lemma predict_not_fitted self params :
  not_fitted self →
  learner_predict self params = Raise AttributeError ∨
  learner_predict self params = Raise NotFittedError.
Proof. unfold learner_predict. intros [-> | ->]; auto. Qed.

Lemma run_not_fitted g cs : ∀ self,
  not_fitted self → no_finalize_succeeded g self cs = true →
  not_fitted (run g self cs).
Proof.
  induction cs as [|c cs IH]; intros self Hinv Hno; [done |].
  simpl in Hno. apply andb_true_iff in Hno as [Hc Hno].
  apply IH; [| done]. clear IH Hno.
  destruct c as [p v | | p | p v]; simpl; [by left | | done | done].
  unfold finalize in *. destruct Hinv as [E | E]; rewrite E in *; simpl in *.
  - destruct (g !! "observations"%string) as [[obs |] |]; simpl in *;
      [| by right | by right].
    destruct (lr_fit (obs.*1) (obs.*2)); simpl in *; [done | by right].
  - done.
Qed.

(** C7. On a learner on which no [finalize] call has returned normally,
    [sample] and [log_probability] raise: [AttributeError] while
    [self.learner] is [None], the library's [NotFittedError] when a failed
    [finalize] left an unfitted estimator (both are the specification's
    NotFittedError). *)
Theorem linreg_query_before_fit g self0 cs params value :
  __init__ = Ok self0 →
  no_finalize_succeeded g self0 cs = true →
  let self := run g self0 cs in
  (sample self params = Raise AttributeError ∨
   sample self params = Raise NotFittedError) ∧
  (log_probability self params value = Raise AttributeError ∨
   log_probability self params value = Raise NotFittedError) ∧
  (learner self = None →
   sample self params = Raise AttributeError ∧
   log_probability self params value = Raise AttributeError).
Proof.
  intros Hinit Hno self.
  assert (not_fitted self) as Hinv.
  { apply run_not_fitted; [| done]. injection Hinit as <-. by left. }
  unfold sample, log_probability.
  split; [by apply predict_not_fitted |]. split.
  - destruct (predict_not_fitted self params Hinv) as [-> | ->]; auto.
  - intros E. unfold learner_predict. by rewrite E.
Qed.

End lin_reg_learner.

(** C7 on the module as it is: one [observe], then a [finalize] that
    raises. *)
Lemma linreg_query_before_fit_witness :
  let self0 := {| LinRegLearner.observations := [];
                  LinRegLearner.learner := @None (estimator (@lr_model zero_regression)) |} in
  let self := LinRegLearner.run learn_globals self0
                [LinRegLearner.CObserve [1%Q] 2%Q; LinRegLearner.CFinalize] in
  LinRegLearner.sample self [1%Q] = Raise AttributeError ∨
  LinRegLearner.sample self [1%Q] = Raise NotFittedError.
Proof.
  intros self0 self.
  apply (@linreg_query_before_fit zero_regression learn_globals self0
           [LinRegLearner.CObserve [1%Q] 2%Q; LinRegLearner.CFinalize]
           [1%Q] 0%Q).
  - reflexivity.
  - vm_compute. reflexivity.
Defined.

(** ** KnnGaussianLearner *)

Section knn_gaussian_learner.
Import KnnGaussianLearner.
Context `{NN : NearestNeighbors}.

Lemma knn_not_subclass : Py.issubclass Py.cKnnGaussianLearner Py.cLinRegLearner = false.
Proof. reflexivity. Qed.

Lemma observe_dict self params value :
  __dict__ (fst (observe self params value)) = __dict__ self.
Proof. reflexivity. Qed.

Lemma finalize_dict self : __dict__ (fst (finalize self)) = __dict__ self.
Proof.
  unfold finalize. destruct (nn self); [done |].
  destruct (filter _ _); [done |]. by destruct (nn_fit _).
Qed.

(** C8. The constructor raises [TypeError], because it calls
    [super(LinRegLearner, self)] on an object that is no [LinRegLearner];
    and on an object that carries the attributes the class assigns,
    whatever they hold, [get_knns] raises [AttributeError]: with [nn]
    unset for [None.kneighbors], otherwise for [self.pairs], which nothing
    assigns.  No neighbour list is returned. *)
Theorem knn_get_knns_raises :
  (∀ k, __init__ k = Raise TypeError) ∧
  (∀ k obs est params,
     get_knns {| k := k; observations := obs; nn := est; __dict__ := ∅ |} params
     = Raise AttributeError) ∧
  (∀ k obs params,
     let self := fst (finalize (fst (observe
                   {| k := k; observations := obs; nn := None; __dict__ := ∅ |}
                   params 0%Q))) in
     get_knns self params = Raise AttributeError).
Proof.
  split; [done |]. split.
  - intros k obs est params. unfold get_knns, getattr_pairs. simpl.
    rewrite lookup_empty. by destruct est.
  - intros k obs params self.
    assert (__dict__ self = ∅) as Hd.
    { unfold self. by rewrite finalize_dict, observe_dict. }
    unfold get_knns, getattr_pairs. rewrite Hd, lookup_empty.
    by destruct (nn self).
Qed.

End knn_gaussian_learner.

(** ** GibbsLearner *)

Section gibbs_learner.
Import GibbsLearner.
Context {Rng : Type} `{GD : GibbsDistribution Rng}.

Lemma observe_all_id obs : ∀ self : t, observe_all self obs = self.
Proof. induction obs as [|o obs IH]; intros self; [done | apply IH]. Qed.

(** C9. [observe] returns normally and leaves the object as it was,
    the map of precomputed distributions and the sampling state alike; so
    after any sequence of [observe] calls [log_probability], [sample] and
    [support] answer as they would have before. *)
Theorem gibbs_observe_noop (self : t) (obs : list (list Z * Z)) :
  (∀ params value, observe self params value = (self, Ok ())) ∧
  observe_all self obs = self ∧
  gibbs_distributions (observe_all self obs) = gibbs_distributions self ∧
  (∀ params value,
     log_probability (observe_all self obs) params value
     = log_probability self params value) ∧
  (∀ params, sample (observe_all self obs) params = sample self params) ∧
  (∀ params, support (observe_all self obs) params = support self params).
Proof. rewrite observe_all_id. repeat split. Qed.

End gibbs_learner.

(** ** LogisticRegressionLearner *)

Lemma getitem_lookup {A} (l : list A) (i : Z) (x : A) :
  0 <= i → l !! Z.to_nat i = Some x → Py.getitem l i = Ok x.
Proof.
  intros Hi Hx. unfold Py.getitem.
  pose proof (lookup_lt_Some _ _ _ Hx).
  rewrite norm_index_nonneg by lia. simpl. by rewrite Hx.
Qed.

Lemma elem_of_range n v : v ∈ Py.range n → 0 <= v < Z.of_nat n.
Proof.
  unfold Py.range. intros (i & -> & Hi)%list_elem_of_fmap.
  apply elem_of_seq in Hi. lia.
Qed.

Section logistic_regression_learner.
Import LogisticRegressionLearner LogisticRegressionLearnerSpec.
Context `{LG : LogisticRegression}.

Lemma observe_all_fields obs : ∀ self : t,
  predictor (observe_all self obs) = predictor self ∧
  _support (observe_all self obs) = _support self ∧
  transform_inputs (observe_all self obs) = transform_inputs self.
Proof.
  induction obs as [|o obs IH]; intros self; [done |].
  change (observe_all self (o :: obs))
    with (observe_all (fst (observe self o.1 o.2)) obs).
  by destruct (IH (fst (observe self o.1 o.2))) as (-> & -> & ->).
Qed.

(** What a [finalize] that returned normally has established. *)
Lemma finalize_ok self self' :
  finalize self = (self', Ok ()) →
  lg_fit (predictor self) (inputs self) (outputs self) = Ok (predictor self') ∧
  lg_classes_ (predictor self') = _support self' ∧
  _support self' = Py.range (length (_support self')) ∧
  _support self' = _support self ∧
  inputs self' = [] ∧ outputs self' = [].
Proof.
  unfold finalize.
  destruct (lg_fit (predictor self) (inputs self) (outputs self)) as [m | e];
    [| intros [= _ ?]; discriminate].
  intros [= <- H]. simpl. unfold py_assert, is_range in H.
  destruct (bool_decide_reflect (lg_classes_ m = _support self)) as [Hc |];
    [| discriminate].
  simpl in H.
  destruct (bool_decide_reflect
              (_support self = Py.range (length (_support self)))) as [Hr |];
    [| discriminate].
  done.
Qed.

(** C4. After a [finalize] that returned normally (and any further
    [observe] calls), for a value of the declared support
    [log_probability] answers with the entry for that class of the first
    row the classifier gives for the transformed context: the probability
    itself, between 0 and 1, with no logarithm taken. *)
Theorem logistic_log_probability_direct self self' obs params value rows :
  predict_proba_contract →
  finalize self = (self', Ok ()) →
  let s := observe_all self' obs in
  value ∈ _support s →
  lg_predict_proba (predictor s) (transform_inputs s params) = Ok rows →
  ∃ row p,
    rows !! 0%nat = Some row ∧
    row !! Z.to_nat value = Some p ∧
    log_probability s params value = Ok p ∧
    (0 <= p <= 1)%Q.
Proof.
  intros Hcontract Hfin s Hv Hrows.
  destruct (finalize_ok self self' Hfin) as (Hfit & Hcls & Hrange & _).
  destruct (observe_all_fields obs self') as (Hp & Hs & Ht). fold s in Hp, Hs, Ht.
  rewrite Hs in Hv. rewrite Hp in Hrows.
  destruct (Hcontract _ _ _ _ _ _ Hfit Hrows) as [Hne Hall].
  destruct rows as [|row rows']; [done |].
  apply Forall_cons in Hall as [[Hlen Hrow] _].
  rewrite Hrange in Hv. apply elem_of_range in Hv.
  rewrite Hcls in Hlen.
  destruct (lookup_lt_is_Some_2 row (Z.to_nat value)) as [p Hpv]; [lia |].
  exists row, p. split; [done |]. split; [done |]. split.
  - unfold log_probability, predict_proba0. rewrite Hp, Hrows. simpl.
    apply getitem_lookup; [lia | done].
  - rewrite Forall_forall in Hrow. apply Hrow.
    by apply list_elem_of_lookup_2 with (Z.to_nat value).
Qed.

End logistic_regression_learner.

Lemma uniform_classifier_contract :
  @LogisticRegressionLearnerSpec.predict_proba_contract uniform_classifier.
Proof.
  intros m X y m' x rows _ [= <-]. split; [done |].
  apply Forall_singleton. split.
  - by rewrite length_replicate.
  - apply Forall_replicate. unfold Qle. simpl. lia.
Qed.

(** C4 with the uniform classifier, support [[0,1]], two observations. *)
Lemma logistic_log_probability_direct_witness :
  let self := LogisticRegressionLearner.observe_all
                (@LogisticRegressionLearner.__init__ uniform_classifier [0; 1] None)
                [([1], 0); ([2], 1)] in
  let self' := fst (LogisticRegressionLearner.finalize self) in
  LogisticRegressionLearner.log_probability self' [1] 1 = Ok (1 # 2)%Q.
Proof.
  intros self self'.
  destruct (@logistic_log_probability_direct uniform_classifier
              self self' [] [1] 1 [[1 # 2; 1 # 2]%Q])
    as (row & p & Hrow & Hp & Hlog & _).
  - exact uniform_classifier_contract.
  - vm_compute. reflexivity.
  - vm_compute. apply list_elem_of_In. simpl. auto.
  - vm_compute. reflexivity.
  - injection Hrow as <-. injection Hp as <-. exact Hlog.
Defined.

(** * Further properties *)

(** ** CountLearner: queries, frames and totals *)

Section count_learner_more.
Import CountLearner CountLearnerSpec CountLearnerTrace.

(** The answer of [log_probability] is a function of the count vector
    the context stands for. *)
Lemma log_probability_snd_ext s1 s2 params value :
  counts_of s1 params = counts_of s2 params →
  snd (log_probability s1 params value) = snd (log_probability s2 params value).
Proof.
  intros H. by rewrite !log_probability_snd, !probability_snd, H.
Qed.

Lemma log_probability_out self params value :
  let n := Z.of_nat (length (counts_of self params)) in
  ¬ (- n <= value < n) →
  snd (log_probability self params value) = Raise IndexError.
Proof.
  intros n H. rewrite log_probability_snd, probability_snd.
  by rewrite getitem_out.
Qed.

Lemma legal_index_spec n v : legal_index n v = true ↔ - n <= v < n.
Proof. unfold legal_index. rewrite andb_true_iff. lia. Qed.

Lemma sum_alter_succ (c : list Z) j :
  (j < length c)%nat →
  Py.sum (alter (fun x => x + 1) j c) = Py.sum c + 1.
Proof.
  revert j. induction c as [|x c IH]; intros j Hj; simpl in *; [lia |].
  destruct j as [|j]; simpl; [lia |].
  change (x + Py.sum (alter (fun x => x + 1) j c) = x + Py.sum c + 1).
  rewrite IH by lia. lia.
Qed.

Lemma reachable_wf support cs :
  wf (run (__init__ support) cs) ∧
  _support (run (__init__ support) cs) = support ∧
  ∀ params, length (counts_of (run (__init__ support) cs) params)
            = length support.
Proof.
  assert (wf (run (__init__ support) cs)) as Hwf by apply run_wf, init_wf.
  assert (_support (run (__init__ support) cs) = support) as Hs
    by apply run_support.
  split; [done |]. split; [done |]. intros params.
  destruct (counts_of_wf _ params Hwf) as [-> _]. by rewrite Hs.
Qed.

(** X1. The counts of a context add up to the size of the support plus
    the number of [observe] calls on that context that did not raise. *)
Theorem count_learner_total support cs params :
  Py.sum (counts_of (run (__init__ support) cs) params)
  = Z.of_nat (length support)
    + accepted_observes (Z.of_nat (length support)) params cs.
Proof.
  assert (∀ cs self, wf self →
            Py.sum (counts_of (run self cs) params)
            = Py.sum (counts_of self params)
              + accepted_observes (Z.of_nat (length (_support self))) params cs)
    as Hgen.
  { clear cs. induction cs as [|c cs IH]; intros self Hwf; [simpl; lia |].
    change (run self (c :: cs)) with (run (step self c) cs).
    rewrite IH by (by apply step_wf). rewrite step_support.
    destruct (counts_of_wf self params Hwf) as [Hlen _].
    destruct c as [p v | p v | p | p |]; simpl.
    - destruct (decide (p = params)) as [-> | Hne].
      + rewrite bool_decide_eq_true_2 by done. simpl.
        destruct (legal_index _ v) eqn:E.
        * apply legal_index_spec in E.
          pose proof (observe_in self params v) as Ho. simpl in Ho.
          rewrite Hlen in Ho. rewrite (Ho E).
          unfold counts_of at 1. simpl. rewrite lookup_insert_eq. simpl.
          rewrite sum_alter_succ; [lia |].
          destruct (norm_index_in _ v E) as [_ Hlt]. lia.
        * assert (¬ (- Z.of_nat (length (_support self)) <= v
                     < Z.of_nat (length (_support self)))) as Hout.
          { intros H. apply legal_index_spec in H. congruence. }
          pose proof (observe_out self params v) as Ho. simpl in Ho.
          rewrite Hlen in Ho. rewrite (Ho Hout). simpl.
          rewrite counts_getitem_counts_of. lia.
      + rewrite bool_decide_eq_false_2 by done. simpl.
        by rewrite observe_counts_of_ne.
    - by rewrite log_probability_fst, counts_getitem_counts_of.
    - unfold sample_effect. by rewrite counts_getitem_counts_of.
    - done.
    - done. }
  rewrite Hgen by apply init_wf. simpl.
  unfold counts_of. simpl. rewrite lookup_empty. simpl.
  unfold default_factory. simpl. by rewrite sum_replicate.
Qed.

(** X2. In a reachable state [log_probability] raises [IndexError]
    exactly when [value] is outside [-n <= value < n], [n] the size of the
    support, and answers with a number otherwise: it never divides by zero
    and never takes the logarithm of a non-positive number.  An empty
    support makes every query and every [observe] raise. *)
Theorem log_probability_errors support cs params value :
  let self := run (__init__ support) cs in
  let n := Z.of_nat (length support) in
  (snd (log_probability self params value) = Raise IndexError
     ↔ ¬ (- n <= value < n)) ∧
  ((∃ x, snd (log_probability self params value) = Ok x) ↔ - n <= value < n) ∧
  (support = [] →
     snd (log_probability self params value) = Raise IndexError ∧
     snd (observe self params value) = Raise IndexError).
Proof.
  intros self n.
  destruct (reachable_wf support cs) as (Hwf & Hs & Hlen). fold self in Hwf, Hs, Hlen.
  assert (¬ (- n <= value < n) →
          snd (log_probability self params value) = Raise IndexError) as Hout.
  { intros H. apply log_probability_out. by rewrite Hlen. }
  assert (- n <= value < n →
          ∃ x, snd (log_probability self params value) = Ok x) as Hin.
  { intros H.
    destruct (log_probability_in self params value Hwf) as (_ & Hl & _);
      [by rewrite Hlen | eauto]. }
  split; [| split].
  - split; [| done]. intros E H. destruct (Hin H) as [x Hx]. congruence.
  - split; [| done]. intros [x Hx].
    destruct (decide (- n <= value < n)) as [| H]; [done |].
    rewrite (Hout H) in Hx. discriminate.
  - intros ->. simpl in n. split; [apply Hout; lia |].
    pose proof (observe_out self params value) as Ho. simpl in Ho.
    rewrite Hlen in Ho. rewrite Ho; [done | simpl; lia].
Qed.

(** X3. A query is not observable: after [log_probability] or [sample]
    on any context, every [log_probability] answers as it would have
    before, although the query may have bound its context. *)
Theorem query_does_not_disturb self params value params' value' :
  snd (log_probability (fst (log_probability self params value)) params' value')
  = snd (log_probability self params' value') ∧
  snd (log_probability (sample_effect self params) params' value')
  = snd (log_probability self params' value').
Proof.
  split; apply log_probability_snd_ext.
  - by rewrite log_probability_fst, counts_getitem_counts_of.
  - unfold sample_effect. by rewrite counts_getitem_counts_of.
Qed.

(** X4. [observe] on one context, accepted or not, leaves the answers
    for every other context as they were. *)
Theorem observe_other_context self params value params' value' :
  params ≠ params' →
  snd (log_probability (fst (observe self params value)) params' value')
  = snd (log_probability self params' value').
Proof.
  intros Hne. apply log_probability_snd_ext. by apply observe_counts_of_ne.
Qed.

Lemma observe_other_context_witness :
  snd (log_probability
         (fst (observe (__init__ [0; 1; 2]) [0] 1)) [1] 2)
  = snd (log_probability (__init__ [0; 1; 2]) [1] 2).
Proof. apply observe_other_context. discriminate. Defined.




(** X6. A negative index names the same entry as the index counted
    from the front: in a reachable state [log_probability(c, v - n)]
    answers as [log_probability(c, v)] for [0 <= v < n]. *)
Theorem negative_index_same_answer support cs params v :
  let self := run (__init__ support) cs in
  let n := Z.of_nat (length support) in
  0 <= v < n →
  snd (log_probability self params (v - n)) = snd (log_probability self params v).
Proof.
  intros self n Hv.
  destruct (reachable_wf support cs) as (Hwf & Hs & Hlen).
  fold self in Hwf, Hs, Hlen. specialize (Hlen params).
  destruct (log_probability_in self params v Hwf) as (_ & -> & _); [lia |].
  destruct (log_probability_in self params (v - n) Hwf) as (_ & -> & _);
    [lia |].
  rewrite Hlen. fold n.
  rewrite (position_nonneg n v), (position_neg n (v - n)) by lia.
  by replace (n + (v - n)) with v by lia.
Qed.

Lemma negative_index_same_answer_witness :
  snd (log_probability (__init__ [0; 1; 2]) [0] (2 - 3))
  = snd (log_probability (__init__ [0; 1; 2]) [0] 2).
Proof. apply (negative_index_same_answer [0; 1; 2] [] [0] 2). simpl. lia. Defined.

(** X7. No call changes the declared support: [support] answers with
    the list the learner was constructed with, for every context and
    after every sequence of calls. *)
Theorem support_is_fixed sup cs params :
  support (run (__init__ sup) cs) params = sup.
Proof. unfold support. apply run_support. Qed.

End count_learner_more.

(** ** LinRegLearner: accumulation, invalidation and repeated finalize *)

Section lin_reg_learner_more.
Import LinRegLearner LinRegLearnerSpec LinRegLearnerTrace.
Context `{LR : LinearRegression}.

Lemma finalize_observations g self :
  observations (fst (finalize g self)) = observations self.
Proof.
  unfold finalize. destruct (learner self); [done |].
  destruct (g !! "observations"%string) as [[obs |] |]; [| done | done].
  by destruct (lr_fit _ _).
Qed.

Lemma finalize_learner_set g self : is_Some (learner (fst (finalize g self))).
Proof.
  unfold finalize. destruct (learner self) eqn:E; [simpl; by rewrite E |].
  destruct (g !! "observations"%string) as [[obs |] |]; [| done | done].
  by destruct (lr_fit _ _).
Qed.

(** X8. Whatever the module namespace, the learner keeps every observed
    pair, in call order: [finalize] and the queries never add, drop or
    reorder observations. *)
Theorem linreg_observations_accumulate g cs : ∀ self,
  observations (run g self cs) = observations self ++ observed_pairs cs.
Proof.
  induction cs as [|c cs IH]; intros self; [by rewrite app_nil_r |].
  change (run g self (c :: cs)) with (run g (step g self c) cs).
  rewrite IH. destruct c as [p v | | p | p v]; simpl.
  - by rewrite <- app_assoc.
  - by rewrite finalize_observations.
  - done.
  - done.
Qed.

(** X9. A [finalize] directly after a [finalize] returns normally and
    changes nothing, whatever the first one did: also when the first one
    raised, because it had already put an estimator in place. *)
Theorem linreg_finalize_twice g self :
  let s1 := fst (finalize g self) in
  finalize g s1 = (s1, Ok ()).
Proof.
  intros s1. destruct (finalize_learner_set g self) as [e He]. fold s1 in He.
  unfold finalize at 1. by rewrite He.
Qed.

Lemma step_not_fitted_module self c :
  not_fitted self → not_fitted (step learn_globals self c).
Proof.
  intros Hinv. destruct c as [p v | | p | p v]; simpl; [by left | | done | done].
  unfold finalize. rewrite learn_globals_observations.
  destruct Hinv as [E | E]; rewrite E; simpl; by right.
Qed.

(** X10. In the module as it is written no sequence of calls ever
    produces a fitted model: from a new learner, after any calls, [sample]
    and [log_probability] raise. *)
Theorem linreg_never_fitted cs params value :
  let new := {| observations := []; learner := None |} in
  let self := run learn_globals new cs in
  __init__ = Ok new ∧
  not_fitted self ∧
  is_ok (sample self params) = false ∧
  is_ok (log_probability self params value) = false.
Proof.
  intros new self. split; [done |].
  assert (not_fitted self) as Hinv.
  { unfold self. assert (not_fitted new) as H0 by (by left).
    revert H0. generalize new. induction cs as [|c cs IH]; intros s Hs; [done |].
    apply IH. by apply step_not_fitted_module. }
  split; [done |]. unfold sample, log_probability.
  destruct (predict_not_fitted self params Hinv) as [-> | ->]; done.
Qed.

Lemma Qsquare_nonneg (a : Q) : (0 <= a ^ 2)%Q.
Proof. destruct a as [n d]. unfold Qle. simpl. nia. Qed.

(** X11. With a fitted model in place [sample] is the model's
    prediction and [log_probability] is minus the squared distance to it:
    never positive, and zero at the prediction itself.  One [observe]
    discards the model: both queries then raise [AttributeError]. *)
Theorem linreg_score self f params pred value :
  learner self = Some (Fitted f) →
  lr_predict f params = Ok pred →
  sample self params = Ok pred ∧
  (∃ s, log_probability self params value = Ok s ∧
        (s == - (pred - value) ^ 2)%Q ∧ (s <= 0)%Q) ∧
  (∃ s, log_probability self params pred = Ok s ∧ (s == 0)%Q) ∧
  (∀ params' value',
     let self' := fst (observe self params' value') in
     sample self' params = Raise AttributeError ∧
     log_probability self' params value = Raise AttributeError).
Proof.
  intros Hl Hp.
  assert (learner_predict self params = Ok pred) as Hpred
    by (unfold learner_predict; by rewrite Hl).
  unfold sample, log_probability. rewrite Hpred. simpl.
  split; [done |]. split; [| split; [| done]].
  - eexists. split; [done |]. split; [reflexivity |].
    apply (Qopp_le_compat 0). apply Qsquare_nonneg.
  - eexists. split; [done |]. ring.
Qed.

End lin_reg_learner_more.

(** X11 with the regression that always predicts 0. *)
Lemma linreg_score_witness :
  let self := {| LinRegLearner.observations := [([1%Q], 2%Q)];
                 LinRegLearner.learner :=
                   Some (@Fitted (@lr_model zero_regression) ()) |} in
  LinRegLearner.sample self [1%Q] = Ok 0%Q.
Proof.
  intros self.
  apply (@linreg_score zero_regression self () [1%Q] 0%Q 3%Q); reflexivity.
Defined.

(** ** KnnGaussianLearner: queries and finalize *)

Lemma mapM_result_Forall2 {A B} (f : A → result B) (l : list A) (ys : list B) :
  mapM f l = Ok ys → Forall2 (fun x y => f x = Ok y) l ys.
Proof.
  revert ys. induction l as [|x l IH]; intros ys; simpl.
  - intros [= <-]. constructor.
  - destruct (f x) as [y |] eqn:Ex; simpl; [| discriminate].
    destruct (mapM f l) as [k |]; simpl; [| discriminate].
    intros [= <-]. constructor; [done | by apply IH].
Qed.

Lemma getitem_elem_of {A} (l : list A) i x : Py.getitem l i = Ok x → x ∈ l.
Proof.
  unfold Py.getitem. destruct (Py.norm_index _ i) as [j |]; simpl; [| discriminate].
  destruct (l !! j) eqn:E; intros [= <-]. by apply list_elem_of_lookup_2 with j.
Qed.

Section knn_gaussian_learner_more.
Import KnnGaussianLearner.
Context `{NN : NearestNeighbors}.
Context `{KDE : GaussianKde (list (list Q * Q))}.

Lemma get_knns_no_pairs self params :
  __dict__ self !! "pairs"%string = None →
  get_knns self params = Raise AttributeError.
Proof.
  intros H. unfold get_knns, getattr_pairs. rewrite H. by destruct (nn self).
Qed.

(** X12. Every query of the class goes through [get_knns]: on an
    object that holds what the class assigns, and after any further
    [observe] and [finalize], [get_density_estimator], [sample] and
    [log_probability] raise [AttributeError]. *)
Theorem knn_queries_raise k obs est params' value' params value :
  let built := {| k := k; observations := obs; nn := est; __dict__ := ∅ |} in
  let self := fst (finalize (fst (observe built params' value'))) in
  (get_density_estimator built params = Raise AttributeError ∧
   sample built params = Raise AttributeError ∧
   log_probability built params value = Raise AttributeError) ∧
  (get_density_estimator self params = Raise AttributeError ∧
   sample self params = Raise AttributeError ∧
   log_probability self params value = Raise AttributeError).
Proof.
  intros built self.
  assert (∀ s, __dict__ s = ∅ →
            get_density_estimator s params = Raise AttributeError ∧
            sample s params = Raise AttributeError ∧
            log_probability s params value = Raise AttributeError) as H.
  { intros s Hs. unfold log_probability, sample, get_density_estimator.
    rewrite get_knns_no_pairs; [done |]. by rewrite Hs, lookup_empty. }
  split; apply H; [done |].
  unfold self. by rewrite finalize_dict, observe_dict.
Qed.

Lemma filter_truthy_nil (obs : list (list Q * Q)) :
  Forall (fun o => o.1 = []) obs →
  filter (fun x => truthy x = true) (obs.*1) = [].
Proof.
  induction 1 as [|[x v] obs Hx _ IH]; [done |].
  simpl in Hx. subst x. rewrite fmap_cons, filter_cons_False; [done |].
  simpl. discriminate.
Qed.

(** X13. When the index is unset and no accumulated context is
    non-empty (in particular with no observations at all), [finalize]
    returns normally and leaves the object as it is; [get_knns] then
    raises [AttributeError]. *)
Theorem knn_finalize_nothing_to_index self params :
  nn self = None →
  Forall (fun o => o.1 = []) (observations self) →
  finalize self = (self, Ok ()) ∧
  get_knns self params = Raise AttributeError.
Proof.
  intros Hnn Hobs. split.
  - unfold finalize. by rewrite Hnn, filter_truthy_nil.
  - unfold get_knns. by rewrite Hnn.
Qed.

(** X14. A [finalize] directly after a [finalize] returns normally and
    changes nothing, whether the first one built the index, found nothing
    to index, or raised while fitting. *)
Theorem knn_finalize_twice self :
  let s1 := fst (finalize self) in
  finalize s1 = (s1, Ok ()).
Proof.
  intros s1.
  assert ((∃ e, nn s1 = Some e) ∨ (s1 = self ∧ finalize self = (self, Ok ())))
    as [[e He] | [Hs Hf]].
  { unfold s1, finalize. destruct (nn self) eqn:Hnn.
    - left. simpl. rewrite Hnn. eauto.
    - destruct (filter _ _) eqn:Hxs; [by right |].
      left. destruct (nn_fit _); simpl; eauto. }
  - unfold finalize. by rewrite He.
  - by rewrite Hs.
Qed.

(** X15. [get_knns] can only return when [pairs] was set on the object
    from outside and the index is fitted; it then asks the index for
    [min(k, len(pairs))] neighbours of the context and returns the first
    row of distances and, for each index of the first row of indices, the
    element of [pairs] at that index: as many elements as indices, each
    one an element of [pairs]. *)
Theorem knn_get_knns_elements self params elements distances :
  get_knns self params = Ok (elements, distances) →
  ∃ ps ix distance_array index_array indices,
    __dict__ self !! "pairs"%string = Some (Py.VPairs ps) ∧
    nn self = Some (Fitted ix) ∧
    nn_kneighbors ix params (Z.min (k self) (Z.of_nat (length ps)))
      = Ok (distance_array, index_array) ∧
    Py.getitem distance_array 0 = Ok distances ∧
    Py.getitem index_array 0 = Ok indices ∧
    length elements = length indices ∧
    Forall2 (fun i e => Py.getitem ps i = Ok e) indices elements ∧
    Forall (fun e => e ∈ ps) elements.
Proof.
  unfold get_knns, getattr_pairs.
  destruct (nn self) as [[| ix] |]; simpl; [| | discriminate].
  { destruct (__dict__ self !! "pairs"%string) as [[ps |] |]; discriminate. }
  destruct (__dict__ self !! "pairs"%string) as [[ps |] |]; simpl;
    [| discriminate | discriminate].
  destruct (nn_kneighbors ix params _) as [[darr iarr] |] eqn:Ekn; simpl;
    [| discriminate].
  destruct (Py.getitem darr 0) as [ds |] eqn:Ed; simpl; [| discriminate].
  destruct (Py.getitem iarr 0) as [idx |] eqn:Ei; simpl; [| discriminate].
  destruct (mapM (Py.getitem ps) idx) as [els |] eqn:Em; simpl; [| discriminate].
  intros [= <- <-].
  apply mapM_result_Forall2 in Em.
  exists ps, ix, darr, iarr, idx. repeat (split; [done |]).
  split; [symmetry; by eapply Forall2_length |]. split; [done |].
  clear -Em. induction Em as [|i e idx els Hi _ IH]; constructor; [| done].
  by apply getitem_elem_of in Hi.
Qed.

End knn_gaussian_learner_more.

(** X13 on a learner whose only observation has the empty context. *)
Lemma knn_finalize_nothing_to_index_witness :
  let self := {| KnnGaussianLearner.k := 1;
                 KnnGaussianLearner.observations := [([], 2%Q)];
                 KnnGaussianLearner.nn := @None (estimator (@nn_index first_neighbors));
                 KnnGaussianLearner.__dict__ := ∅ |} in
  KnnGaussianLearner.finalize self = (self, Ok ()).
Proof.
  intros self.
  apply (@knn_finalize_nothing_to_index first_neighbors self []).
  - reflexivity.
  - repeat constructor.
Defined.

(** X15 on an object that was given [pairs] from outside. *)
Lemma knn_get_knns_elements_witness :
  let self := {| KnnGaussianLearner.k := 1;
                 KnnGaussianLearner.observations := [([1%Q], 2%Q)];
                 KnnGaussianLearner.nn :=
                   Some (@Fitted (@nn_index first_neighbors) [[1%Q]]);
                 KnnGaussianLearner.__dict__ :=
                   {[ "pairs"%string := Py.VPairs [([1%Q], 2%Q)] ]} |} in
  ∃ indices : list Z, length [([1%Q], 2%Q)] = length indices.
Proof.
  intros self.
  destruct (@knn_get_knns_elements first_neighbors self [1%Q]
              [([1%Q], 2%Q)] [0%Q])
    as (ps & ix & darr & iarr & idx & _ & _ & _ & _ & _ & Hlen & _).
  - vm_compute. reflexivity.
  - exists idx. exact Hlen.
Defined.

(** ** GibbsLearner: unknown contexts and what calls can change *)

Section gibbs_learner_more.
Import GibbsLearner GibbsLearnerTrace.
Context {Rng : Type} `{GD : GibbsDistribution Rng}.

(** X16. For a context that is not in the precomputed map,
    [log_probability], [sample] and [support] raise [KeyError] and leave
    the learner, its sampling state included, as it was. *)
Theorem gibbs_unknown_context (self : t) params value :
  gibbs_distributions self !! params = None →
  log_probability self params value = (self, Raise KeyError) ∧
  sample self params = (self, Raise KeyError) ∧
  support self params = (self, Raise KeyError).
Proof.
  intros H. unfold log_probability, sample, support, distributions_getitem.
  by rewrite H.
Qed.

Lemma step_distributions (self : t) c :
  gibbs_distributions (step self c) = gibbs_distributions self.
Proof.
  destruct c as [p v | p v | p | p |]; simpl; try done.
  unfold sample. destruct (distributions_getitem self p); [| done].
  by destruct (gd_sample _ _).
Qed.

Lemma step_not_sample (self : t) c : is_sample c = false → step self c = self.
Proof. by destruct c. Qed.

(** X17. No sequence of calls changes the map of precomputed
    distributions, and calls other than [sample] leave the whole learner
    as it was: only [sample] advances the sampling state. *)
Theorem gibbs_map_invariant (self : t) (cs : list call) :
  gibbs_distributions (run self cs) = gibbs_distributions self ∧
  run self (filter (fun c => is_sample c = false) cs) = self.
Proof.
  split.
  - revert self. induction cs as [|c cs IH]; intros self; [done |].
    change (run self (c :: cs)) with (run (step self c) cs).
    by rewrite IH, step_distributions.
  - revert self. induction cs as [|c cs IH]; intros self; [done |].
    destruct (is_sample c) eqn:E.
    + rewrite filter_cons_False by (rewrite E; discriminate). apply IH.
    + rewrite filter_cons_True by done.
      change (run self (c :: filter (fun c => is_sample c = false) cs))
        with (run (step self c) (filter (fun c => is_sample c = false) cs)).
      by rewrite step_not_sample, IH.
Qed.

End gibbs_learner_more.

(** X16 on a learner that knows the context [(0,)] only. *)
Lemma gibbs_unknown_context_witness :
  let self := @GibbsLearner.__init__ nat cyclic_distribution
                {[ [0] := [0; 1] ]} 7%nat in
  GibbsLearner.sample self [1] = (self, Raise KeyError).
Proof.
  intros self.
  apply (@gibbs_unknown_context nat cyclic_distribution self [1] 0).
  vm_compute. reflexivity.
Defined.

(** ** LogisticRegressionLearner: transformers, buffers and finalize *)

Lemma list_bind_singleton_fmap {A B} (f : A → B) (l : list A) :
  (l ≫= fun x => [f x]) = f <$> l.
Proof. induction l as [|x l IH]; [done |]. by rewrite bind_cons, fmap_cons, IH. Qed.

Lemma list_bind_length_const {A B} (g : A → list B) n (l : list A) :
  (∀ x, length (g x) = n) → length (l ≫= g) = (length l * n)%nat.
Proof.
  intros Hg. induction l as [|x l IH]; [done |].
  rewrite bind_cons, length_app, IH, Hg. simpl. lia.
Qed.

Lemma list_bind_lookup_const {A B} (g : A → list B) n (l : list A) i j x :
  (∀ x, length (g x) = n) → l !! i = Some x → (j < n)%nat →
  (l ≫= g) !! (i * n + j)%nat = g x !! j.
Proof.
  intros Hg. revert i. induction l as [|y l IH]; intros i Hi Hj; [done |].
  rewrite bind_cons. destruct i as [|i]; simpl in *.
  - injection Hi as ->. by rewrite lookup_app_l by (rewrite Hg; lia).
  - rewrite lookup_app_r by (rewrite Hg; lia). rewrite Hg.
    replace (n + i * n + j - n)%nat with (i * n + j)%nat by lia.
    by apply IH.
Qed.

(** X18. [square_transformer] lists every product of two components:
    for a context of [n] components the result has [n * n] entries, and
    the entry at [i * n + j] is the product of components [i] and [j]. *)
Theorem square_transformer_products xs i j xi xj :
  xs !! i = Some xi → xs !! j = Some xj →
  length (square_transformer xs) = (length xs * length xs)%nat ∧
  square_transformer xs !! (i * length xs + j)%nat = Some (xi * xj).
Proof.
  intros Hi Hj. unfold square_transformer.
  assert (∀ a, length (xs ≫= fun b => [a * b]) = length xs) as Hrow.
  { intros a. by rewrite list_bind_singleton_fmap, length_fmap. }
  split.
  - by apply list_bind_length_const.
  - rewrite (list_bind_lookup_const _ (length xs) xs i j xi Hrow Hi)
      by (by eapply lookup_lt_Some).
    by rewrite list_bind_singleton_fmap, list_lookup_fmap, Hj.
Qed.

Lemma square_transformer_products_witness :
  square_transformer [2; 3; 5] !! (1 * length [2; 3; 5] + 2)%nat = Some (3 * 5).
Proof.
  apply (square_transformer_products [2; 3; 5] 1 2 3 5); reflexivity.
Defined.

Section logistic_regression_learner_more.
Import LogisticRegressionLearner LogisticRegressionLearnerSpec.
Context `{LG : LogisticRegression}.

(** X19. [observe] buffers the transformed context and the value, in
    call order, and touches nothing else: the two buffers grow in step,
    and [log_probability] keeps answering from the classifier as it was
    until the next [finalize]. *)
Theorem logistic_observe_buffers obs : ∀ self : t,
  inputs (observe_all self obs)
    = inputs self ++ ((fun o => transform_inputs self o.1) <$> obs) ∧
  outputs (observe_all self obs) = outputs self ++ obs.*2 ∧
  (∀ params value,
     log_probability (observe_all self obs) params value
     = log_probability self params value).
Proof.
  induction obs as [|o obs IH]; intros self.
  - simpl. by rewrite !app_nil_r.
  - change (observe_all self (o :: obs))
      with (observe_all (fst (observe self o.1 o.2)) obs).
    destruct (IH (fst (observe self o.1 o.2))) as (-> & -> & Hl).
    simpl. rewrite <- !app_assoc. split; [done |]. split; [done |].
    intros params value. by rewrite Hl.
Qed.


(** X21. [finalize] empties the buffers, so a second [finalize] with no
    [observe] in between fits on empty data: with a classifier whose [fit]
    refuses an empty sample, it raises what [fit] raises and leaves the
    learner as the first [finalize] left it. *)
Theorem logistic_second_finalize (self : t) e :
  (∀ m, lg_fit m [] [] = Raise e) →
  snd (finalize self) = Ok () →
  let s1 := fst (finalize self) in
  finalize s1 = (s1, Raise e).
Proof.
  intros Hempty Hok s1.
  assert (inputs s1 = [] ∧ outputs s1 = []) as [Hi Ho].
  { unfold s1. unfold finalize in Hok |- *.
    destruct (lg_fit (predictor self) (inputs self) (outputs self));
      [done | discriminate]. }
  unfold finalize. by rewrite Hi, Ho, Hempty.
Qed.

End logistic_regression_learner_more.

(** X21 with the classifier that refuses an empty sample. *)
Lemma logistic_second_finalize_witness :
  let self := LogisticRegressionLearner.observe_all
                (@LogisticRegressionLearner.__init__ strict_classifier [0; 1] None)
                [([1], 0); ([2], 1)] in
  let s1 := fst (LogisticRegressionLearner.finalize self) in
  LogisticRegressionLearner.finalize s1 = (s1, Raise ValueError).
Proof.
  intros self s1.
  apply (@logistic_second_finalize strict_classifier self ValueError).
  - reflexivity.
  - vm_compute. reflexivity.
Defined.

Section logistic_regression_learner_bounds.
Import LogisticRegressionLearner LogisticRegressionLearnerSpec.
Context `{LG : LogisticRegression}.

(** X22. After a [finalize] that returned normally, when the classifier
    answers, [log_probability] for a value that is no index of the row of
    class probabilities, [-n <= value < n] with [n] the size of the
    support, raises [IndexError]; nothing is clamped or defaulted. *)
Theorem logistic_log_probability_out_of_range self self' obs params value rows :
  predict_proba_contract →
  finalize self = (self', Ok ()) →
  let s := observe_all self' obs in
  let n := Z.of_nat (length (_support s)) in
  lg_predict_proba (predictor s) (transform_inputs s params) = Ok rows →
  ¬ (- n <= value < n) →
  log_probability s params value = Raise IndexError.
Proof.
  intros Hcontract Hfin s n Hrows Hout.
  destruct (finalize_ok self self' Hfin) as (Hfit & Hcls & _).
  destruct (observe_all_fields obs self') as (Hp & Hs & _).
  fold s in Hp, Hs. unfold n in Hout. rewrite Hs in Hout. rewrite Hp in Hrows.
  destruct (Hcontract _ _ _ _ _ _ Hfit Hrows) as [Hne Hall].
  destruct rows as [|row rows']; [done |].
  apply Forall_cons in Hall as [[Hlen _] _]. rewrite Hcls in Hlen.
  unfold log_probability, predict_proba0. rewrite Hp, Hrows. simpl.
  apply getitem_out. by rewrite Hlen.
Qed.

End logistic_regression_learner_bounds.

(** X22 with the uniform classifier, support [[0,1]], value 5. *)
Lemma logistic_log_probability_out_of_range_witness :
  let self := LogisticRegressionLearner.observe_all
                (@LogisticRegressionLearner.__init__ uniform_classifier [0; 1] None)
                [([1], 0); ([2], 1)] in
  let self' := fst (LogisticRegressionLearner.finalize self) in
  LogisticRegressionLearner.log_probability self' [1] 5 = Raise IndexError.
Proof.
  intros self self'.
  apply (@logistic_log_probability_out_of_range uniform_classifier
           self self' [] [1] 5 [[1 # 2; 1 # 2]%Q]).
  - exact uniform_classifier_contract.
  - vm_compute. reflexivity.
  - vm_compute. reflexivity.
  - vm_compute. intros [H1 H2]. discriminate H2.
Defined.
